(** * go-ftw: marker scanner, expectation checker and stage executor

    A shallow embedding of the Go sources of go-ftw
    ([waflog/read.go], [check/base.go], [runner/run.go]) together with the
    properties of its specification.

    Conventions of the embedding.
    - A Go [[]byte] or [string] is a [string] (a list of 8-bit characters).
    - A Go [int] is a [Z]; the only counters that are incremented are bounded
      by the number of lines of the log file, so no wrap-around can occur.
    - A Go [error] is its message ([err.Error()]); [nil] is [None].
    - [log.Fatal] ends the process: a function that may reach it returns an
      [Outcome].
    - What the translated files call but do not define (the [regexp],
      [uuid] and [backscanner] packages, the HTTP client of [ftwhttp] with
      the firewall that writes the log, the accessors of the [test] package
      and the run statistics) is a member of the class [External].
    - Wall-clock time (stage duration, round-trip time) is not modelled. *)

From Stdlib Require Import String Ascii List ZArith Bool Lia Permutation.
Import ListNotations.

Local Open Scope string_scope.
Local Open Scope list_scope.

Set Implicit Arguments.

(* ------------------------------------------------------------------ *)
(** ** Byte-slice helpers of Go's [bytes] / [strings] packages *)

Module bytes.

(** [unicode.ToLower] restricted to one ASCII byte. *)
Definition lowerByte (c : ascii) : ascii :=
  let n := nat_of_ascii c in
  if (65 <=? n)%nat && (n <=? 90)%nat then ascii_of_nat (n + 32) else c.

(** [bytes.ToLower]: log lines are taken to be ASCII, where Go maps
    ['A'..'Z'] to ['a'..'z'] and keeps every other byte. *)
Fixpoint ToLower (s : string) : string :=
  match s with
  | EmptyString => EmptyString
  | String c s' => String (lowerByte c) (ToLower s')
  end.

(** [bytes.Equal]. *)
Definition Equal (a b : string) : bool := String.eqb a b.

(** [bytes.HasPrefix b sub]. *)
Fixpoint HasPrefix (b sub : string) {struct sub} : bool :=
  match sub, b with
  | EmptyString, _ => true
  | String _ _, EmptyString => false
  | String x sub', String y b' => Ascii.eqb x y && HasPrefix b' sub'
  end.

(** [bytes.Contains b sub] / [strings.Contains s sub]: [sub] occurs in [b]. *)
Fixpoint Contains (b sub : string) : bool :=
  HasPrefix b sub ||
  match b with
  | EmptyString => false
  | String _ b' => Contains b' sub
  end.

End bytes.

(** [log.Fatal] aborts the run; every other path returns a value. *)
Inductive Outcome (A : Type) : Type :=
| Returns (a : A)
| Fatal (msg : string).
Arguments Fatal {A} msg.

Definition bindO {A B} (m : Outcome A) (k : A -> Outcome B) : Outcome B :=
  match m with
  | Returns a => k a
  | Fatal msg => Fatal msg
  end.

Declare Scope outcome_scope.
Delimit Scope outcome_scope with outcome.
Notation "x <- m ;; k" := (bindO m (fun x => k))
  (at level 61, m at next level, right associativity) : outcome_scope.
Notation "' p <- m ;; k" := (bindO m (fun p => k))
  (at level 61, p pattern, m at next level, right associativity) : outcome_scope.

Definition error := string.

(* ------------------------------------------------------------------ *)
(** ** Data of the [ftwhttp], [test] and [schema] packages *)

Module ftwhttp.
Record Destination := { DestAddr : string; Port : Z; Protocol : string }.
Record RequestLine := { Method : string; URI : string; Version : string }.
(** [ftwhttp.Header]: header name to value. *)
Definition Header := list (string * string).
(** [NewRequest(rline, headers, data, autocomplete)] or
    [NewRawRequest(raw, autocomplete)]. *)
Inductive Request :=
| NewRequest (rline : RequestLine) (h : Header) (data : option string)
             (autocomplete : bool)
| NewRawRequest (raw : string) (autocomplete : bool).
(** [response.Parsed.StatusCode] and [response.GetFullResponse()]. *)
Record Response := { StatusCode : Z; GetFullResponse : string }.
End ftwhttp.

Module test.
(** [test.Input]; a [*string] is an [option string]. *)
Record Input := {
  Headers : ftwhttp.Header;
  Data : option string;
  EncodedRequest : string;
  RAWRequest : string;
  AutocompleteHeaders : bool
}.
Record LogOutput := { MatchRegex : string; NoMatchRegex : string }.
(** [test.Output]: the expectations of one stage. *)
Record Output := {
  Status : Z;
  ResponseContains : string;
  LogContains : string;
  NoLogContains : string;
  Log : LogOutput;
  ExpectError : option bool;
  RetryOnce : option bool
}.
(** [&test.Output{}]. *)
Definition emptyOutput : Output :=
  {| Status := 0; ResponseContains := ""; LogContains := "";
     NoLogContains := ""; Log := {| MatchRegex := ""; NoMatchRegex := "" |};
     ExpectError := None; RetryOnce := None |}.
End test.

Module schema.
Record Stage := { Input : test.Input; Output : test.Output }.
(** [schema.Test]: [IdString] is the value of [testCase.IdString()]. *)
Record Test := { IdString : string; Stages : list Stage }.
End schema.

(** [TestResult] of the runner. *)
Inductive TestResult :=
| Success | Failed | Ignored | ForceFail | ForcePass | Skipped.

Definition TestResult_eqb (a b : TestResult) : bool :=
  match a, b with
  | Success, Success | Failed, Failed | Ignored, Ignored
  | ForceFail, ForceFail | ForcePass, ForcePass | Skipped, Skipped => true
  | _, _ => false
  end.

(** What the run statistics receive: [addResultToStats(result, testCase)]
    and [addStageResultToStats(testCase, stageTime)] (durations are not
    modelled). *)
Inductive StatEntry :=
| StatResult (r : TestResult) (id : string)
| StatStage (id : string).

Module config.
Inductive RunMode := DefaultRunMode | CloudRunMode.

(** [TestOverride]: the three maps from a compiled pattern to a reason.
    The keys are pointers, so a map is a list of pairs. *)
Record FTWTestOverride (Regexp : Type) := {
  Ignore : list (Regexp * string);
  ForcePass : list (Regexp * string);
  ForceFail : list (Regexp * string)
}.

Record FTWConfiguration (Regexp : Type) := {
  LogFile : string;
  LogMarkerHeaderName : string;
  RunMode_ : RunMode;
  MaxMarkerRetries : Z;
  MaxMarkerLogLines : Z;
  TestOverride : FTWTestOverride Regexp
}.
End config.

(** The collaborators that are not part of the repository's sources. *)
Class External := {
  (** A compiled pattern, [regexp.Compile] ([None]: the pattern is
      malformed) and the methods [Match] and [MatchString]. *)
  Regexp : Type;
  regexp_Compile : string -> option Regexp;
  Regexp_Match : Regexp -> string -> bool;
  (** The network, the HTTP client and the firewall with its log file. *)
  World : Type;
  uuid_NewString : World -> string * World;
  Client_NewConnection : ftwhttp.Destination -> World -> option error * World;
  Client_NewOrReusedConnection :
    ftwhttp.Destination -> World -> option error * World;
  Client_Do :
    ftwhttp.Request -> World ->
    (option ftwhttp.Response * option error) * World;
  (** The lines of the log file, oldest first, as the [backscanner] package
      splits them; [None] when the file cannot be opened. *)
  logFileLines : World -> option (list string);
  (** [waflog.NewFTWLogLines] fails or not. *)
  NewFTWLogLines_err : config.FTWConfiguration Regexp -> World -> option error;
  (** Accessors and overrides of the [test] package. *)
  Input_GetDestAddr : test.Input -> string;
  Input_GetPort : test.Input -> Z;
  Input_GetProtocol : test.Input -> string;
  Input_GetMethod : test.Input -> string;
  Input_GetURI : test.Input -> string;
  Input_GetVersion : test.Input -> string;
  Input_GetRawRequest : test.Input -> option string * option error;
  Input_ParseData : test.Input -> option string;
  test_ApplyInputOverrides :
    config.FTWConfiguration Regexp -> test.Input -> test.Input;
  test_ApplyPlatformOverrides :
    config.FTWConfiguration Regexp -> schema.Test -> schema.Test;
  (** [TotalFailed()] of the run statistics. *)
  Stats_TotalFailed : list StatEntry -> Z;
  (** The rendering of a destination by the verb [%+v]. *)
  fmtDest : ftwhttp.Destination -> string
}.

(** [regexp.Match(pattern, b)]: compile, then match. *)
Definition regexp_Match `{E : External} (pattern b : string) : bool * option error :=
  match regexp_Compile pattern with
  | None => (false, Some ("error parsing regexp: " ++ pattern)%string)
  | Some re => (Regexp_Match re b, None)
  end.

(* ------------------------------------------------------------------ *)
(** ** Package [waflog]: the marker scanner *)

Module waflog.

(** [FTWLogLines]: the two markers set on the scanner.  The file handle is
    external; the functions below receive the lines it currently holds. *)
Record FTWLogLines := { StartMarker : string; EndMarker : string }.

(** The [backscanner]: successive [LineBytes()] calls yield the lines from
    the last to the first, then [io.EOF]. *)
Definition backscan (lines : list string) : list string := rev lines.

(** The loop of [getMarkedLines]; [scan] is what the scanner still holds. *)
Fixpoint markedLoop (ll : FTWLogLines) (scan : list string)
         (endFound : bool) (found : list string) : list string :=
  match scan with
  | [] => found
  | line :: rest =>
      let lineLower := bytes.ToLower line in
      if negb endFound && bytes.Equal lineLower (EndMarker ll) then
        markedLoop ll rest true found
      else if endFound && bytes.Equal lineLower (StartMarker ll) then
        found
      else
        markedLoop ll rest endFound (found ++ [line])
  end.

Definition getMarkedLines (ll : FTWLogLines) (file : option (list string))
  : list string :=
  match file with
  | None => []
  | Some lines => markedLoop ll (backscan lines) false []
  end.

Section WithExternal.
Context `{E : External}.

(** The loop of [Contains]. *)
Fixpoint containsLoop (match_ : string) (lines : list string)
  : Outcome bool :=
  match lines with
  | [] => Returns false
  | line :: rest =>
      match regexp_Match match_ line with
      | (_, Some err) => Fatal ("ftw/waflog: bad regexp " ++ err)%string
      | (got, None) =>
          if got then Returns true else containsLoop match_ rest
      end
  end.

Definition Contains (ll : FTWLogLines) (file : option (list string))
           (match_ : string) : Outcome bool :=
  containsLoop match_ (getMarkedLines ll file).
End WithExternal.

(** How the search loop of [CheckLogForMarker] is left; [lineCounter] is
    the value of the counter at that point. *)
Inductive LoopExit :=
| Aborted (lineCounter : Z)
| ReachedEOF (lineCounter : Z)
| HeaderFound (line : string) (lineCounter : Z).

Fixpoint markerLoop (crsHeaderBytes : string) (readLimit : Z)
         (scan : list string) (lineCounter : Z) : LoopExit :=
  if (lineCounter >? readLimit)%Z then Aborted lineCounter
  else
    let lineCounter := (lineCounter + 1)%Z in
    match scan with
    | [] => ReachedEOF lineCounter
    | line :: rest =>
        let line := bytes.ToLower line in
        if bytes.Contains line crsHeaderBytes then HeaderFound line lineCounter
        else markerLoop crsHeaderBytes readLimit rest lineCounter
    end.

(** [CheckLogForMarker(stageID, readLimit)]; [headerName] is
    [config.FTWConfig.LogMarkerHeaderName]. *)
Definition CheckLogForMarker (headerName : string)
           (file : option (list string)) (stageID : string) (readLimit : Z)
  : option string * bool :=
  match file with
  | None => (None, false)
  | Some lines =>
      let stageIDBytes := stageID in
      let crsHeaderBytes := bytes.ToLower headerName in
      match markerLoop crsHeaderBytes readLimit (backscan lines) 0 with
      | Aborted _ => (None, true)
      | ReachedEOF _ => (None, false)
      | HeaderFound line _ =>
          if bytes.Contains line stageIDBytes then (Some line, false)
          else (None, false)
      end
  end.

(** Number of [LineBytes()] calls of the search that returned a line. *)
Definition linesInspected (headerName : string) (lines : list string)
           (readLimit : Z) : Z :=
  match markerLoop (bytes.ToLower headerName) readLimit (backscan lines) 0 with
  | Aborted n => n
  | ReachedEOF n => (n - 1)%Z
  | HeaderFound _ n => n
  end.

End waflog.

(* ------------------------------------------------------------------ *)
(** ** Package [check]: the expectation checker *)

Module check.
Section WithExternal.
Context `{E : External}.

(** [FTWCheck]. *)
Record FTWCheck := {
  log : waflog.FTWLogLines;
  expected : test.Output;
  cfg : config.FTWConfiguration Regexp
}.

Definition setLog (c : FTWCheck) (l : waflog.FTWLogLines) : FTWCheck :=
  {| log := l; expected := expected c; cfg := cfg c |}.

Definition setExpected (c : FTWCheck) (t : test.Output) : FTWCheck :=
  {| log := log c; expected := t; cfg := cfg c |}.

(** [NewCheck(c)]: the check, or the error of [waflog.NewFTWLogLines]. *)
Definition NewCheck (c : config.FTWConfiguration Regexp) (w : World)
  : error + FTWCheck :=
  match NewFTWLogLines_err c w with
  | Some err => inl err
  | None =>
      inr {| log := {| waflog.StartMarker := ""; waflog.EndMarker := "" |};
             expected := test.emptyOutput;
             cfg := c |}
  end.

Definition SetExpectTestOutput (c : FTWCheck) (t : test.Output) : FTWCheck :=
  setExpected c t.

Definition updOutput (o : test.Output)
           (status : Z) (resp lc nlc : string) (lg : test.LogOutput)
           (ee : option bool) : test.Output :=
  {| test.Status := status; test.ResponseContains := resp;
     test.LogContains := lc; test.NoLogContains := nlc; test.Log := lg;
     test.ExpectError := ee; test.RetryOnce := test.RetryOnce o |}.

Definition SetExpectStatus (c : FTWCheck) (status : Z) : FTWCheck :=
  let o := expected c in
  setExpected c
    (updOutput o status (test.ResponseContains o) (test.LogContains o)
               (test.NoLogContains o) (test.Log o) (test.ExpectError o)).

Definition SetExpectResponse (c : FTWCheck) (response : string) : FTWCheck :=
  let o := expected c in
  setExpected c
    (updOutput o (test.Status o) response (test.LogContains o)
               (test.NoLogContains o) (test.Log o) (test.ExpectError o)).

Definition SetExpectError (c : FTWCheck) (expect : bool) : FTWCheck :=
  let o := expected c in
  setExpected c
    (updOutput o (test.Status o) (test.ResponseContains o)
               (test.LogContains o) (test.NoLogContains o) (test.Log o)
               (Some expect)).

Definition SetLogContains (c : FTWCheck) (regex : string) : FTWCheck :=
  let o := expected c in
  setExpected c
    (updOutput o (test.Status o) (test.ResponseContains o) regex
               (test.NoLogContains o)
               {| test.MatchRegex := regex;
                  test.NoMatchRegex := test.NoMatchRegex (test.Log o) |}
               (test.ExpectError o)).

Definition SetNoLogContains (c : FTWCheck) (regex : string) : FTWCheck :=
  let o := expected c in
  setExpected c
    (updOutput o (test.Status o) (test.ResponseContains o)
               (test.LogContains o) regex
               {| test.MatchRegex := test.MatchRegex (test.Log o);
                  test.NoMatchRegex := regex |}
               (test.ExpectError o)).

(** [for re := range m { if re.MatchString(id) { return true } };
    return false]. *)
Definition anyMatches (m : list (Regexp * string)) (id : string) : bool :=
  existsb (fun entry => Regexp_Match (fst entry) id) m.

Definition ForcedIgnore (c : FTWCheck) (id : string) : bool :=
  anyMatches (config.Ignore (config.TestOverride (cfg c))) id.

Definition ForcedPass (c : FTWCheck) (id : string) : bool :=
  anyMatches (config.ForcePass (config.TestOverride (cfg c))) id.

Definition ForcedFail (c : FTWCheck) (id : string) : bool :=
  anyMatches (config.ForceFail (config.TestOverride (cfg c))) id.

Definition CloudMode (c : FTWCheck) : bool :=
  match config.RunMode_ (cfg c) with
  | config.CloudRunMode => true
  | config.DefaultRunMode => false
  end.

Definition SetStartMarker (c : FTWCheck) (marker : string) : FTWCheck :=
  setLog c {| waflog.StartMarker := bytes.ToLower marker;
              waflog.EndMarker := waflog.EndMarker (log c) |}.

Definition SetEndMarker (c : FTWCheck) (marker : string) : FTWCheck :=
  setLog c {| waflog.StartMarker := waflog.StartMarker (log c);
              waflog.EndMarker := bytes.ToLower marker |}.

(** Modelled from the spec: [AssertExpectError] ([check/error.go] is not
    among the sources).  The first component says whether the stage
    expects a connection or send error; the second one whether the
    outcome agrees with the expectation: an error when one is expected,
    none when none is, which is the table of [check/error_test.go]. *)
Definition AssertExpectError (c : FTWCheck) (err : option error)
  : bool * bool :=
  let errorExpected :=
    match test.ExpectError (expected c) with
    | Some b => b
    | None => false
    end in
  let occurred := match err with Some _ => true | None => false end in
  (errorExpected,
   (errorExpected && occurred) || (negb errorExpected && negb occurred)).

(** Modelled from the spec: [AssertStatus] ([check/status.go] is not among
    the sources).  "Response status code must be in the expected set; if
    the expectation specifies no status, this criterion is trivially
    satisfied."  The expected status is one [int], [0] when absent. *)
Definition AssertStatus (c : FTWCheck) (status : Z) : bool :=
  if (test.Status (expected c) =? 0)%Z then true
  else (test.Status (expected c) =? status)%Z.

(** Modelled from the spec: [AssertResponseContains] ([check/response.go]
    is not among the sources).  "The full reconstructed response text must
    contain the expected substring when one is specified." *)
Definition AssertResponseContains (c : FTWCheck) (response : string) : bool :=
  if String.eqb (test.ResponseContains (expected c)) "" then true
  else bytes.Contains response (test.ResponseContains (expected c)).

(** Modelled from the spec: [AssertLogContains] ([check/logs.go] is not
    among the sources).  "The bounded log window must contain at least one
    line matching the expected regex, when specified."  [file] is the
    content of the log file when the check runs. *)
Definition AssertLogContains (c : FTWCheck) (file : option (list string))
  : Outcome bool :=
  if String.eqb (test.LogContains (expected c)) "" then Returns true
  else waflog.Contains (log c) file (test.LogContains (expected c)).

(** Modelled from the spec: [AssertNoLogContains].  "No line in the window
    may match the must-not-appear regex, when specified." *)
Definition AssertNoLogContains (c : FTWCheck) (file : option (list string))
  : Outcome bool :=
  if String.eqb (test.NoLogContains (expected c)) "" then Returns true
  else
    (found <- waflog.Contains (log c) file (test.NoLogContains (expected c)) ;;
     Returns (negb found))%outcome.

(** Modelled from the spec: [AssertLogs], the log-contains criterion and
    then the log-not-contains one; the first that fails decides. *)
Definition AssertLogs (c : FTWCheck) (file : option (list string))
  : Outcome bool :=
  (ok <- AssertLogContains c file ;;
   if ok then AssertNoLogContains c file else Returns false)%outcome.

End WithExternal.
End check.

(* ------------------------------------------------------------------ *)
(** ** Package [runner]: the stage executor *)

Module runner.

(** What a run does to the outside, in order. *)
Inductive Event :=
| EvNewStageID (stageID : string)
| EvMarkAndFlush (stageID : string)
| EvNewConnection (dest : ftwhttp.Destination)
| EvNewOrReusedConnection (dest : ftwhttp.Destination)
| EvDo (req : ftwhttp.Request)
| EvDisplayResult (r : TestResult)
| EvPrint (msg : string).

(** The calls into the Connection layer. *)
Definition isConnectionEvent (e : Event) : bool :=
  match e with
  | EvNewConnection _ | EvNewOrReusedConnection _ | EvDo _ => true
  | _ => false
  end.

Definition isMarkingEvent (e : Event) : bool :=
  match e with
  | EvMarkAndFlush _ => true
  | _ => false
  end.

Definition isStageStart (e : Event) : bool :=
  match e with
  | EvNewStageID _ => true
  | _ => false
  end.

Definition errBadTestInput : error :=
  "ftw/run: bad test input: choose between data, encoded_request, or raw_request".

Definition errRetryOnce : error := "retry-once".

Section WithExternal.
Context `{E : External}.

(** [TestRunContext]: the client and the log are in [world]; what was
    printed and which external calls were made is in [trace]. *)
Record TestRunContext := {
  Config : config.FTWConfiguration Regexp;
  Include : option Regexp;
  Exclude : option Regexp;
  FailFast : bool;
  ShowOnlyFailed : bool;
  Stats : list StatEntry;
  Result : TestResult;
  world : World;
  trace : list Event
}.

Definition setWorld (rc : TestRunContext) (w : World) : TestRunContext :=
  {| Config := Config rc; Include := Include rc; Exclude := Exclude rc;
     FailFast := FailFast rc; ShowOnlyFailed := ShowOnlyFailed rc;
     Stats := Stats rc; Result := Result rc; world := w;
     trace := trace rc |}.

Definition emit (rc : TestRunContext) (e : Event) : TestRunContext :=
  {| Config := Config rc; Include := Include rc; Exclude := Exclude rc;
     FailFast := FailFast rc; ShowOnlyFailed := ShowOnlyFailed rc;
     Stats := Stats rc; Result := Result rc; world := world rc;
     trace := trace rc ++ [e] |}.

Definition addStat (rc : TestRunContext) (s : StatEntry) : TestRunContext :=
  {| Config := Config rc; Include := Include rc; Exclude := Exclude rc;
     FailFast := FailFast rc; ShowOnlyFailed := ShowOnlyFailed rc;
     Stats := Stats rc ++ [s]; Result := Result rc; world := world rc;
     trace := trace rc |}.

Definition setResult (rc : TestRunContext) (r : TestResult)
  : TestRunContext :=
  {| Config := Config rc; Include := Include rc; Exclude := Exclude rc;
     FailFast := FailFast rc; ShowOnlyFailed := ShowOnlyFailed rc;
     Stats := Stats rc; Result := r; world := world rc;
     trace := trace rc |}.

Definition addResultToStats (rc : TestRunContext) (r : TestResult)
           (testCase : schema.Test) : TestRunContext :=
  addStat rc (StatResult r (schema.IdString testCase)).

Definition addStageResultToStats (rc : TestRunContext)
           (testCase : schema.Test) : TestRunContext :=
  addStat rc (StatStage (schema.IdString testCase)).

(** The loop of [markAndFlush]; [i] is the number of rounds left. *)
Fixpoint markLoop (i : nat) (rc : TestRunContext)
         (dest : ftwhttp.Destination) (req : ftwhttp.Request)
         (stageID : string) : (string * option error) * TestRunContext :=
  match i with
  | O =>
      (("", Some ("can't find log marker. Am I reading the correct log? Log file: "
                    ++ config.LogFile (Config rc))%string), rc)
  | S i' =>
      let '(err, w) := Client_NewOrReusedConnection dest (world rc) in
      let rc := emit (setWorld rc w) (EvNewOrReusedConnection dest) in
      match err with
      | Some e =>
          (("", Some ("ftw/run: can't connect to destination "
                        ++ fmtDest dest ++ ": " ++ e)%string), rc)
      | None =>
          let '((_, err), w) := Client_Do req (world rc) in
          let rc := emit (setWorld rc w) (EvDo req) in
          match err with
          | Some e =>
              (("", Some ("ftw/run: failed sending request to "
                            ++ fmtDest dest ++ ": " ++ e)%string), rc)
          | None =>
              let marker :=
                fst (waflog.CheckLogForMarker
                       (config.LogMarkerHeaderName (Config rc))
                       (logFileLines (world rc)) stageID
                       (config.MaxMarkerLogLines (Config rc))) in
              match marker with
              | Some m => ((m, None), rc)
              | None => markLoop i' rc dest req stageID
              end
          end
      end
  end.

Definition markAndFlush (rc : TestRunContext) (dest : ftwhttp.Destination)
           (stageID : string) : (string * option error) * TestRunContext :=
  let rline := {| ftwhttp.Method := "GET"; ftwhttp.URI := "/status/200";
                  ftwhttp.Version := "HTTP/1.1" |} in
  let headers := [("Accept", "*/*"); ("User-Agent", "go-ftw test agent");
                  ("Host", "localhost");
                  (config.LogMarkerHeaderName (Config rc), stageID)] in
  let req := ftwhttp.NewRequest rline headers None true in
  markLoop (Z.to_nat (config.MaxMarkerRetries (Config rc)))
           (emit rc (EvMarkAndFlush stageID)) dest req stageID.

Definition needToSkipTest (include exclude : option Regexp)
           (testCase : schema.Test) : bool :=
  let id := schema.IdString testCase in
  let includeMatches :=
    match include with
    | Some re => Regexp_Match re id
    | None => false
    end in
  if includeMatches then false
  else
    let result := false in
    let result :=
      match exclude with
      | Some re => if Regexp_Match re id then true else result
      | None => result
      end in
    let result :=
      match include with
      | Some re => if negb (Regexp_Match re id) then true else result
      | None => result
      end in
    result.

(** Modelled from the spec: [utils.IsNotEmpty] (package [utils] is not
    among the sources): inline data is supplied when the pointer is set
    and the string it points to is not empty. *)
Definition IsNotEmpty (data : option string) : bool :=
  match data with
  | Some s => negb (String.eqb s "")
  | None => false
  end.

Definition checkTestSanity (testInput : test.Input) : bool :=
  (IsNotEmpty (test.Data testInput)
     && negb (String.eqb (test.EncodedRequest testInput) ""))
  || (IsNotEmpty (test.Data testInput)
        && negb (String.eqb (test.RAWRequest testInput) ""))
  || (negb (String.eqb (test.EncodedRequest testInput) "")
        && negb (String.eqb (test.RAWRequest testInput) "")).

Definition displayResult (rc : TestRunContext) (result : TestResult)
  : TestRunContext :=
  match result with
  | Success | Ignored | ForcePass =>
      if negb (ShowOnlyFailed rc) then emit rc (EvDisplayResult result)
      else rc
  | Failed | ForceFail => emit rc (EvDisplayResult result)
  | Skipped => rc
  end.

Definition overriddenTestResult (c : check.FTWCheck)
           (testCase : schema.Test) : TestResult :=
  if check.ForcedIgnore c (schema.IdString testCase) then Ignored
  else if check.ForcedFail c (schema.IdString testCase) then ForceFail
  else if check.ForcedPass c (schema.IdString testCase) then ForcePass
  else Failed.

(** The assertions [checkResult] calls on the check. *)
Record Assertions := {
  assertExpectError : check.FTWCheck -> option error -> bool * bool;
  assertStatus : check.FTWCheck -> Z -> bool;
  assertResponseContains : check.FTWCheck -> string -> bool;
  assertLogs : check.FTWCheck -> option (list string) -> Outcome bool
}.

Definition checkAssertions : Assertions :=
  {| assertExpectError := check.AssertExpectError;
     assertStatus := check.AssertStatus;
     assertResponseContains := check.AssertResponseContains;
     assertLogs := check.AssertLogs |}.

(** [checkResult(c, response, responseError)]; [file] is the log file
    that [c.AssertLogs()] reads. *)
Definition checkResultWith (A : Assertions) (c : check.FTWCheck)
           (response : option ftwhttp.Response)
           (responseError : option error) (file : option (list string))
  : Outcome TestResult :=
  let '(expected, succeeded) := assertExpectError A c responseError in
  if expected then
    if succeeded then Returns Success else Returns Failed
  else
    match responseError with
    | Some _ => Returns Failed
    | None =>
        match response with
        | None => Returns Failed
        | Some response =>
            if negb (assertStatus A c (ftwhttp.StatusCode response)) then
              Returns Failed
            else if negb (assertResponseContains A c
                            (ftwhttp.GetFullResponse response)) then
              Returns Failed
            else
              (logsOk <- assertLogs A c file ;;
               if negb logsOk then Returns Failed
               else Returns Success)%outcome
        end
    end.

Definition checkResult := checkResultWith checkAssertions.

Definition getRequestFromTest (testInput : test.Input) : ftwhttp.Request :=
  let '(raw, _) := Input_GetRawRequest testInput in
  match raw with
  | Some raw =>
      ftwhttp.NewRawRequest raw (test.AutocompleteHeaders testInput)
  | None =>
      let rline := {| ftwhttp.Method := Input_GetMethod testInput;
                      ftwhttp.URI := Input_GetURI testInput;
                      ftwhttp.Version := Input_GetVersion testInput |} in
      let data := Input_ParseData testInput in
      ftwhttp.NewRequest rline (test.Headers testInput) data
                         (test.AutocompleteHeaders testInput)
  end.

Definition notRunningInCloudMode (c : check.FTWCheck) : bool :=
  negb (check.CloudMode c).

(** [if err != nil && !expectErr { return fmt.Errorf(prefix + "%w", err) }]:
    the error that ends the stage, if any. *)
Definition hardError (expectErr : bool) (prefix : string)
           (err : option error) : option error :=
  match err with
  | Some e => if negb expectErr then Some (prefix ++ e)%string else None
  | None => None
  end.

Definition boolOf (p : option bool) : bool :=
  match p with
  | Some b => b
  | None => false
  end.

(** [RunStage(runContext, ftwCheck, testCase, stage)]: the error returned,
    the context and the check as the call leaves them. *)
Definition RunStage (rc : TestRunContext) (ftwCheck : check.FTWCheck)
           (testCase : schema.Test) (stage : schema.Stage)
  : Outcome (option error * TestRunContext * check.FTWCheck) :=
  let '(stageID, w) := uuid_NewString (world rc) in
  let rc := emit (setWorld rc w) (EvNewStageID stageID) in
  let testInput := test_ApplyInputOverrides (Config rc) (schema.Input stage) in
  let expectedOutput := schema.Output stage in
  let expectErr := boolOf (test.ExpectError expectedOutput) in
  if checkTestSanity testInput then
    Returns (Some errBadTestInput, rc, ftwCheck)
  else
    let overridden := overriddenTestResult ftwCheck testCase in
    if negb (TestResult_eqb overridden Failed) then
      let rc := addResultToStats rc overridden testCase in
      let rc := displayResult rc overridden in
      Returns (None, rc, ftwCheck)
    else
      let dest := {| ftwhttp.DestAddr := Input_GetDestAddr testInput;
                     ftwhttp.Port := Input_GetPort testInput;
                     ftwhttp.Protocol := Input_GetProtocol testInput |} in
      let '(startErr, rc, ftwCheck) :=
        if notRunningInCloudMode ftwCheck then
          let '((startMarker, err), rc) := markAndFlush rc dest stageID in
          match hardError expectErr "failed to find start marker: " err with
          | Some e => (Some e, rc, ftwCheck)
          | None => (None, rc, check.SetStartMarker ftwCheck startMarker)
          end
        else (None, rc, ftwCheck) in
      match startErr with
      | Some e => Returns (Some e, rc, ftwCheck)
      | None =>
          let req := getRequestFromTest testInput in
          let '(err, w) := Client_NewConnection dest (world rc) in
          let rc := emit (setWorld rc w) (EvNewConnection dest) in
          match hardError expectErr
                  ("can't connect to destination " ++ fmtDest dest ++ ": ")
                  err with
          | Some e => Returns (Some e, rc, ftwCheck)
          | None =>
              let '((response, responseErr), w) := Client_Do req (world rc) in
              let rc := emit (setWorld rc w) (EvDo req) in
              match hardError expectErr
                      ("failed sending request to destination "
                         ++ fmtDest dest ++ ": ")
                      responseErr with
              | Some e => Returns (Some e, rc, ftwCheck)
              | None =>
                  let '(endErr, rc, ftwCheck) :=
                    if notRunningInCloudMode ftwCheck then
                      let '((endMarker, err), rc) :=
                        markAndFlush rc dest stageID in
                      match hardError expectErr
                              "failed to find end marker: " err with
                      | Some e => (Some e, rc, ftwCheck)
                      | None =>
                          (None, rc, check.SetEndMarker ftwCheck endMarker)
                      end
                    else (None, rc, ftwCheck) in
                  match endErr with
                  | Some e => Returns (Some e, rc, ftwCheck)
                  | None =>
                      let ftwCheck :=
                        check.SetExpectTestOutput ftwCheck expectedOutput in
                      (testResult <-
                         checkResult ftwCheck response responseErr
                                     (logFileLines (world rc)) ;;
                       if TestResult_eqb testResult Failed
                          && boolOf (test.RetryOnce expectedOutput) then
                         Returns (Some errRetryOnce, rc, ftwCheck)
                       else
                         let rc := setResult rc testResult in
                         let rc := displayResult rc testResult in
                         let rc := addStageResultToStats rc testCase in
                         Returns (None, rc, ftwCheck))%outcome
                  end
              end
          end
      end.

(** The loop over the stages of one test case in [RunTest]. *)
Fixpoint runStages (rc : TestRunContext) (testCase : schema.Test)
         (stages : list schema.Stage)
  : Outcome (option error * TestRunContext) :=
  match stages with
  | [] => Returns (None, rc)
  | stage :: rest =>
      match check.NewCheck (Config rc) (world rc) with
      | inl err => Returns (Some err, rc)
      | inr ftwCheck =>
          ('(err, rc, ftwCheck) <- RunStage rc ftwCheck testCase stage ;;
           match err with
           | Some e =>
               if String.eqb e "retry-once" then
                 ('(err, rc, _) <- RunStage rc ftwCheck testCase stage ;;
                  match err with
                  | Some e => Returns (Some e, rc)
                  | None => runStages rc testCase rest
                  end)
               else Returns (Some e, rc)
           | None => runStages rc testCase rest
           end)%outcome
      end
  end.

(** The loop over the test cases in [RunTest]; [name] is
    [ftwTest.Meta.Name]. *)
Fixpoint runTestCases (rc : TestRunContext) (name : string)
         (changed : bool) (tests : list schema.Test)
  : Outcome (option error * TestRunContext) :=
  match tests with
  | [] => Returns (None, rc)
  | testCase :: rest =>
      if needToSkipTest (Include rc) (Exclude rc) testCase then
        runTestCases (addResultToStats rc Skipped testCase) name changed rest
      else
        let testCase := test_ApplyPlatformOverrides (Config rc) testCase in
        let '(rc, changed) :=
          if changed && negb (ShowOnlyFailed rc) then
            (emit rc (EvPrint ("=> executing tests in file " ++ name)%string),
             false)
          else (rc, changed) in
        let rc :=
          if negb (ShowOnlyFailed rc) then
            emit rc (EvPrint (String (ascii_of_nat 9) "running "
                                ++ schema.IdString testCase ++ ": ")%string)
          else rc in
        ('(err, rc) <- runStages rc testCase (schema.Stages testCase) ;;
         match err with
         | Some e => Returns (Some e, rc)
         | None =>
             let rc := addResultToStats rc (Result rc) testCase in
             if FailFast rc && (Stats_TotalFailed (Stats rc) >? 0)%Z then
               Returns (None, rc)
             else runTestCases rc name changed rest
         end)%outcome
  end.

(** [test.FTWTest]. *)
Record FTWTest := { MetaName : string; Tests : list schema.Test }.

Definition RunTest (rc : TestRunContext) (ftwTest : FTWTest)
  : Outcome (option error * TestRunContext) :=
  runTestCases rc (MetaName ftwTest) true (Tests ftwTest).

End WithExternal.
End runner.

(* ------------------------------------------------------------------ *)
(** ** A small concrete environment

    Patterns are literal substrings (the pattern ["("] is malformed); the
    firewall answers every request with [status] and writes one log line
    per request header, [name: value]. *)

Module Demo.

Record DemoWorld := {
  logLines : option (list string);
  freshIDs : list string;
  status : Z;
  down : bool
}.

Definition echo (h : ftwhttp.Header) : list string :=
  map (fun kv => (fst kv ++ ": " ++ snd kv)%string) h.

Definition doRequest (req : ftwhttp.Request) (w : DemoWorld)
  : (option ftwhttp.Response * option error) * DemoWorld :=
  if down w then ((None, Some "connection refused"), w)
  else
    let written :=
      match req with
      | ftwhttp.NewRequest _ h _ _ => echo h
      | ftwhttp.NewRawRequest raw _ => [raw]
      end in
    ((Some {| ftwhttp.StatusCode := status w;
              ftwhttp.GetFullResponse := "HTTP/1.1 response" |}, None),
     {| logLines := option_map (fun l => l ++ written) (logLines w);
        freshIDs := freshIDs w; status := status w; down := down w |}).

Definition connect (d : ftwhttp.Destination) (w : DemoWorld)
  : option error * DemoWorld :=
  if down w then (Some "connection refused", w) else (None, w).

Definition newID (w : DemoWorld) : string * DemoWorld :=
  match freshIDs w with
  | id :: ids =>
      (id, {| logLines := logLines w; freshIDs := ids; status := status w;
              down := down w |})
  | [] => ("00000000", w)
  end.

Definition ext : External :=
  {| Regexp := string;
     regexp_Compile := fun p => if String.eqb p "(" then None else Some p;
     Regexp_Match := fun re b => bytes.Contains b re;
     World := DemoWorld;
     uuid_NewString := newID;
     Client_NewConnection := connect;
     Client_NewOrReusedConnection := connect;
     Client_Do := doRequest;
     logFileLines := logLines;
     NewFTWLogLines_err := fun _ _ => None;
     Input_GetDestAddr := fun _ => "localhost";
     Input_GetPort := fun _ => 80%Z;
     Input_GetProtocol := fun _ => "http";
     Input_GetMethod := fun _ => "GET";
     Input_GetURI := fun _ => "/";
     Input_GetVersion := fun _ => "HTTP/1.1";
     Input_GetRawRequest := fun i =>
       (if String.eqb (test.RAWRequest i) "" then None
        else Some (test.RAWRequest i), None);
     Input_ParseData := test.Data;
     test_ApplyInputOverrides := fun _ i => i;
     test_ApplyPlatformOverrides := fun _ t => t;
     Stats_TotalFailed := fun stats =>
       Z.of_nat (length (filter (fun s => match s with
                                          | StatResult Failed _
                                          | StatResult ForceFail _ => true
                                          | _ => false
                                          end) stats));
     fmtDest := ftwhttp.DestAddr |}.

Definition noOverride : config.FTWTestOverride string :=
  {| config.Ignore := []; config.ForcePass := []; config.ForceFail := [] |}.

Definition cfgWith (mode : config.RunMode) (o : config.FTWTestOverride string)
  : config.FTWConfiguration string :=
  {| config.LogFile := "error.log";
     config.LogMarkerHeaderName := "X-CRS-Test";
     config.RunMode_ := mode;
     config.MaxMarkerRetries := 2;
     config.MaxMarkerLogLines := 10;
     config.TestOverride := o |}.

Definition worldWith (lines : option (list string)) (st : Z) (isDown : bool)
  : DemoWorld :=
  {| logLines := lines; freshIDs := ["1b4e28ba"; "6fa459ea"; "9c3b7d10"];
     status := st; down := isDown |}.

Definition contextWith (c : config.FTWConfiguration (@Regexp ext)) (w : DemoWorld)
  : runner.TestRunContext (E := ext) :=
  {| runner.Config := c; runner.Include := None; runner.Exclude := None;
     runner.FailFast := false; runner.ShowOnlyFailed := false;
     runner.Stats := []; runner.Result := Success;
     runner.world := w; runner.trace := [] |}.

Definition checkWith (c : config.FTWConfiguration (@Regexp ext))
  : check.FTWCheck (E := ext) :=
  {| check.log := {| waflog.StartMarker := ""; waflog.EndMarker := "" |};
     check.expected := test.emptyOutput;
     check.cfg := c |}.

Definition inputWith (data : option string) (encoded raw : string)
  : test.Input :=
  {| test.Headers := [("Host", "localhost")]; test.Data := data;
     test.EncodedRequest := encoded; test.RAWRequest := raw;
     test.AutocompleteHeaders := true |}.

Definition outputWith (st : Z) (logContains : string)
           (expectError retryOnce : option bool) : test.Output :=
  {| test.Status := st; test.ResponseContains := "";
     test.LogContains := logContains; test.NoLogContains := "";
     test.Log := {| test.MatchRegex := logContains; test.NoMatchRegex := "" |};
     test.ExpectError := expectError; test.RetryOnce := retryOnce |}.

Definition testWith (id : string) (stages : list schema.Stage) : schema.Test :=
  {| schema.IdString := id; schema.Stages := stages |}.

(** A check that expects status 403 and a log line with rule 911100,
    after the end marker was set. *)
Definition check403 : check.FTWCheck (E := ext) :=
  check.SetEndMarker
    (check.SetExpectTestOutput
       (checkWith (cfgWith config.DefaultRunMode noOverride))
       (outputWith 403 "id 911100" None None))
    "x-crs-test: 1b4e28ba".

(** A check whose only expectation is a must-not-appear pattern. *)
Definition checkNoLog (pattern : string) : check.FTWCheck (E := ext) :=
  check.SetExpectTestOutput
    (checkWith (cfgWith config.DefaultRunMode noOverride))
    {| test.Status := 0; test.ResponseContains := "";
       test.LogContains := ""; test.NoLogContains := pattern;
       test.Log := {| test.MatchRegex := ""; test.NoMatchRegex := pattern |};
       test.ExpectError := None; test.RetryOnce := None |}.

Definition response403 : ftwhttp.Response :=
  {| ftwhttp.StatusCode := 403;
     ftwhttp.GetFullResponse := "HTTP/1.1 403 Forbidden" |}.

Definition log911100 : option (list string) :=
  Some ["ModSecurity: Warning. [id 911100]"; "X-CRS-Test: 1b4e28ba"].

(** A configuration whose ignore rule matches the tests of rule 920100. *)
Definition ignoreCfg : config.FTWConfiguration (@Regexp ext) :=
  cfgWith config.DefaultRunMode
          {| config.Ignore := [("920100", "known false positive")];
             config.ForcePass := []; config.ForceFail := [] |}.

Definition plainCfg : config.FTWConfiguration (@Regexp ext) :=
  cfgWith config.DefaultRunMode noOverride.

(** A stage that supplies inline data and an encoded request. *)
Definition ambiguousStage : schema.Stage :=
  {| schema.Input := inputWith (Some "a=b") "R0VUIC8gSFRUUC8xLjE=" "";
     schema.Output := outputWith 200 "" None None |}.

Definition plainStage : schema.Stage :=
  {| schema.Input := inputWith None "" "";
     schema.Output := outputWith 200 "" None None |}.

(** A stage that expects status 403 and declares retry-once. *)
Definition retryStage : schema.Stage :=
  {| schema.Input := inputWith None "" "";
     schema.Output := outputWith 403 "" None (Some true) |}.

Definition test920100 (stages : list schema.Stage) : schema.Test :=
  testWith "920100-1" stages.

Definition freshLog : DemoWorld := worldWith (Some []) 200 false.

(** The first run of [retryStage] against a target that answers 200. *)
Definition retryFirstRun
  : Outcome (option error * runner.TestRunContext (E := ext)
             * check.FTWCheck (E := ext)) :=
  Eval vm_compute in
    runner.RunStage (contextWith plainCfg freshLog) (checkWith plainCfg)
                    (test920100 [retryStage]) retryStage.

Definition contextAfterFirstRun : runner.TestRunContext (E := ext) :=
  Eval vm_compute in
    match retryFirstRun with
    | Returns (_, rc, _) => rc
    | Fatal _ => contextWith plainCfg freshLog
    end.

Definition checkAfterFirstRun : check.FTWCheck (E := ext) :=
  Eval vm_compute in
    match retryFirstRun with
    | Returns (_, _, c) => c
    | Fatal _ => checkWith plainCfg
    end.

(** The second run of [retryStage], on the check of the first one. *)
Definition retrySecondRun
  : Outcome (option error * runner.TestRunContext (E := ext)
             * check.FTWCheck (E := ext)) :=
  Eval vm_compute in
    runner.RunStage contextAfterFirstRun checkAfterFirstRun
                    (test920100 [retryStage]) retryStage.

Definition contextAfterSecondRun : runner.TestRunContext (E := ext) :=
  Eval vm_compute in
    match retrySecondRun with
    | Returns (_, rc, _) => rc
    | Fatal _ => contextAfterFirstRun
    end.

Definition checkAfterSecondRun : check.FTWCheck (E := ext) :=
  Eval vm_compute in
    match retrySecondRun with
    | Returns (_, _, c) => c
    | Fatal _ => checkAfterFirstRun
    end.

(** What a stage run reports: its error, the verdict in the context and
    the statistics. *)
Definition verdictOf
           (r : Outcome (option error * runner.TestRunContext (E := ext)
                         * check.FTWCheck (E := ext)))
  : option (option error * TestResult * list StatEntry) :=
  match r with
  | Returns (err, rc, _) => Some (err, runner.Result rc, runner.Stats rc)
  | Fatal _ => None
  end.

Definition stageExpecting (st : Z) (logContains : string)
           (expectError : option bool) : schema.Stage :=
  {| schema.Input := inputWith None "" "";
     schema.Output := outputWith st logContains expectError None |}.

Definition runOn (c : config.FTWConfiguration (@Regexp ext))
           (w : DemoWorld) (stage : schema.Stage) :=
  verdictOf (runner.RunStage (contextWith c w) (checkWith c)
                      (test920100 [stage]) stage).

End Demo.

(* ------------------------------------------------------------------ *)
(** ** The vocabulary of the specification *)

Module Criteria.

(** A line contains the marker-header name, compared case-insensitively. *)
Definition hasHeader (header line : string) : bool :=
  bytes.Contains (bytes.ToLower line) (bytes.ToLower header).

(** A line contains the stage ID, compared case-insensitively. *)
Definition hasStageID (stageID line : string) : bool :=
  bytes.Contains (bytes.ToLower line) (bytes.ToLower stageID).

(** Number of stage runs that a trace records. *)
Definition stageRuns (tr : list runner.Event) : nat :=
  length (filter runner.isStageStart tr).

(** Number of the three request sources that an input supplies. *)
Definition suppliedSources (i : test.Input) : nat :=
  (if runner.IsNotEmpty (test.Data i) then 1 else 0)
  + (if String.eqb (test.EncodedRequest i) "" then 0 else 1)
  + (if String.eqb (test.RAWRequest i) "" then 0 else 1).

Section WithExternal.
Context `{E : External}.

(** The bounded log window that the check looks at. *)
Definition window (c : check.FTWCheck) (file : option (list string))
  : list string :=
  waflog.getMarkedLines (check.log c) file.

(** The pattern compiles and matches the line. *)
Definition matchesLine (pattern line : string) : Prop :=
  exists re, regexp_Compile pattern = Some re /\ Regexp_Match re line = true.

(** A specified pattern is one that compiles. *)
Definition wellFormed (pattern : string) : Prop :=
  pattern = "" \/ regexp_Compile pattern <> None.

(** Status: no status is expected, or the response has the expected one. *)
Definition statusHolds (c : check.FTWCheck) (r : ftwhttp.Response) : Prop :=
  test.Status (check.expected c) = 0%Z \/
  ftwhttp.StatusCode r = test.Status (check.expected c).

(** Content: no substring is expected, or the response text has it. *)
Definition contentHolds (c : check.FTWCheck) (r : ftwhttp.Response) : Prop :=
  test.ResponseContains (check.expected c) = "" \/
  exists pre post,
    ftwhttp.GetFullResponse r
    = (pre ++ test.ResponseContains (check.expected c) ++ post)%string.

(** Log-contains: no pattern is given, or a line of the window matches. *)
Definition logContainsHolds (c : check.FTWCheck)
           (file : option (list string)) : Prop :=
  test.LogContains (check.expected c) = "" \/
  exists line,
    In line (window c file) /\
    matchesLine (test.LogContains (check.expected c)) line.

(** Log-not-contains: no pattern is given, or no line of the window
    matches. *)
Definition logNotContainsHolds (c : check.FTWCheck)
           (file : option (list string)) : Prop :=
  test.NoLogContains (check.expected c) = "" \/
  forall line,
    In line (window c file) ->
    ~ matchesLine (test.NoLogContains (check.expected c)) line.

(** The four expectation criteria together. *)
Definition criteriaHold (c : check.FTWCheck) (r : ftwhttp.Response)
           (file : option (list string)) : Prop :=
  statusHolds c r /\ contentHolds c r /\
  logContainsHolds c file /\ logNotContainsHolds c file.

(** Some override rule matches the identifier of the test. *)
Definition overrideMatches (c : check.FTWCheck) (testCase : schema.Test)
  : bool :=
  check.ForcedIgnore c (schema.IdString testCase)
  || check.ForcedFail c (schema.IdString testCase)
  || check.ForcedPass c (schema.IdString testCase).

(** The events a run appended to the trace of [rc] to reach [rc']. *)
Definition appended (rc rc' : runner.TestRunContext)
           (evs : list runner.Event) : Prop :=
  runner.trace rc' = runner.trace rc ++ evs.

End WithExternal.
End Criteria.

(* ------------------------------------------------------------------ *)
(** ** Further code of the repository *)

(** The earlier [CheckLogForMarker(stageID)] of [waflog/read.go], which
    looks at the last non-empty line and at the line before it. *)
Module waflog0.

(** [for err == nil && len(line) == 0 { line, _, err = scanner.LineBytes() }]:
    the first non-empty line that the scanner yields, if any, and what the
    scanner still holds. *)
Fixpoint lastNonEmpty (scan : list string) : option string * list string :=
  match scan with
  | [] => (None, [])
  | line :: rest =>
      if (String.length line =? 0)%nat then lastNonEmpty rest
      else (Some line, rest)
  end.

Definition isMarkerLine (crsHeaderBytes stageIDBytes line : string) : bool :=
  bytes.Contains line crsHeaderBytes && bytes.Contains line stageIDBytes.

(** [CheckLogForMarker(stageID)]; [headerName] is
    [config.FTWConfig.LogMarkerHeaderName]. *)
Definition CheckLogForMarker (headerName : string)
           (file : option (list string)) (stageID : string) : option string :=
  match file with
  | None => None
  | Some lines =>
      let stageIDBytes := stageID in
      let crsHeaderBytes := bytes.ToLower headerName in
      match lastNonEmpty (waflog.backscan lines) with
      | (None, _) => None
      | (Some line, rest) =>
          let line := bytes.ToLower line in
          if isMarkerLine crsHeaderBytes stageIDBytes line then Some line
          else
            match rest with
            | [] => None
            | line :: _ =>
                let line := bytes.ToLower line in
                if isMarkerLine crsHeaderBytes stageIDBytes line then Some line
                else None
            end
      end
  end.

End waflog0.

(** The key mapping of [NewConfigFromEnv] in [config/config.go]. *)
Module configEnv.

(** [strings.TrimPrefix(s, prefix)]. *)
Fixpoint dropBytes (n : nat) (s : string) : string :=
  match n, s with
  | O, _ => s
  | S n', String _ s' => dropBytes n' s'
  | S _, EmptyString => EmptyString
  end.

Definition TrimPrefix (s prefix : string) : string :=
  if bytes.HasPrefix s prefix then dropBytes (String.length prefix) s else s.

(** [strings.ReplaceAll(s, old, new)] for one-byte [old] and [new]. *)
Fixpoint ReplaceAll (s : string) (old new : ascii) : string :=
  match s with
  | EmptyString => EmptyString
  | String c s' =>
      String (if Ascii.eqb c old then new else c) (ReplaceAll s' old new)
  end.

(** [func(s string) string { return strings.ReplaceAll(strings.ToLower(
    strings.TrimPrefix(s, "FTW_")), "_", ".") }].  Names of environment
    variables are taken to be ASCII, where [strings.ToLower] maps the
    letters A to Z only. *)
Definition envKey (s : string) : string :=
  ReplaceAll (bytes.ToLower (TrimPrefix s "FTW_")) "_"%char "."%char.

End configEnv.

(** [Run] of [runner/run.go]. *)
Module runnerRun.

(** [RunnerConfig]; durations are numbers of nanoseconds. *)
Record RunnerConfig (Regexp : Type) := {
  Include : option Regexp;
  Exclude : option Regexp;
  ShowTime : bool;
  ShowOnlyFailed : bool;
  ConnectTimeout : Z;
  ReadTimeout : Z;
  RateLimit : Z;
  FailFast : bool
}.

(** [ftwhttp.ClientConfig]; the limiter is [rate.NewLimiter(rate.Every(d), b)]. *)
Record ClientConfig := {
  clientConnectTimeout : Z;
  clientReadTimeout : Z;
  RateLimiter : option (Z * Z)
}.

(** What [Run] hands back: [returned] is [None] for the empty context
    [&TestRunContext{}]; [reached] is the context as the run left it. *)
Record RunReturn (Ctx : Type) := {
  returned : option Ctx;
  runError : option error;
  reached : option Ctx;
  summaryPrinted : bool;
  logsCleaned : bool
}.

Section WithExternal.
Context `{E : External}.

(** [ftwhttp.NewClientConfig()], the failure of [ftwhttp.NewClient(conf)]
    and the zero value of [TestResult]. *)
Variable NewClientConfig : ClientConfig.
Variable NewClient_err : ClientConfig -> World -> option error.
Variable zeroResult : TestResult.

(** The client configuration that [Run] derives from the runner's. *)
Definition clientConfigOf (c : RunnerConfig Regexp) : ClientConfig :=
  let conf := NewClientConfig in
  let conf :=
    if negb (ConnectTimeout c =? 0)%Z then
      {| clientConnectTimeout := ConnectTimeout c;
         clientReadTimeout := clientReadTimeout conf;
         RateLimiter := RateLimiter conf |}
    else conf in
  let conf :=
    if negb (ReadTimeout c =? 0)%Z then
      {| clientConnectTimeout := clientConnectTimeout conf;
         clientReadTimeout := ReadTimeout c;
         RateLimiter := RateLimiter conf |}
    else conf in
  if negb (RateLimit c =? 0)%Z then
    {| clientConnectTimeout := clientConnectTimeout conf;
       clientReadTimeout := clientReadTimeout conf;
       RateLimiter := Some (RateLimit c, 1%Z) |}
  else conf.

(** The loop over the test files: the error of a test, if any, and the
    context. *)
Fixpoint runTests (failFast : bool) (rc : runner.TestRunContext)
         (tests : list runner.FTWTest)
  : Outcome (option error * runner.TestRunContext) :=
  match tests with
  | [] => Returns (None, rc)
  | tc :: rest =>
      ('(err, rc) <- runner.RunTest rc tc ;;
       match err with
       | Some e => Returns (Some e, rc)
       | None =>
           if failFast && (Stats_TotalFailed (runner.Stats rc) >? 0)%Z then
             Returns (None, rc)
           else runTests failFast rc rest
       end)%outcome
  end.

(** [Run(cfg, tests, c, out)] in the world [w]. *)
Definition Run (cfg : config.FTWConfiguration Regexp)
           (tests : list runner.FTWTest) (c : RunnerConfig Regexp) (w : World)
  : Outcome (RunReturn runner.TestRunContext) :=
  match NewFTWLogLines_err cfg w with
  | Some err =>
      Returns {| returned := None; runError := Some err; reached := None;
                 summaryPrinted := false; logsCleaned := false |}
  | None =>
      let conf := clientConfigOf c in
      match NewClient_err conf w with
      | Some err =>
          Returns {| returned := None; runError := Some err; reached := None;
                     summaryPrinted := false; logsCleaned := false |}
      | None =>
          let runContext :=
            {| runner.Config := cfg;
               runner.Include := Include c;
               runner.Exclude := Exclude c;
               runner.FailFast := FailFast c;
               runner.ShowOnlyFailed := ShowOnlyFailed c;
               runner.Stats := [];
               runner.Result := zeroResult;
               runner.world := w;
               runner.trace := [runner.EvPrint "** Running go-ftw!"] |} in
          ('(err, rc) <- runTests (FailFast c) runContext tests ;;
           match err with
           | Some e =>
               Returns {| returned := None; runError := Some e;
                          reached := Some rc;
                          summaryPrinted := false; logsCleaned := false |}
           | None =>
               Returns {| returned := Some rc; runError := None;
                          reached := Some rc;
                          summaryPrinted := true; logsCleaned := true |}
           end)%outcome
      end
  end.

End WithExternal.
End runnerRun.

(** Counting the events of a trace. *)
Module Counting.

Definition countEv (p : runner.Event -> bool) (tr : list runner.Event) : nat :=
  length (filter p tr).

Definition isProbeOrRequest (e : runner.Event) : bool :=
  match e with
  | runner.EvDo _ => true
  | _ => false
  end.

Definition isFreshConnection (e : runner.Event) : bool :=
  match e with
  | runner.EvNewConnection _ => true
  | _ => false
  end.

Definition isReusedConnection (e : runner.Event) : bool :=
  match e with
  | runner.EvNewOrReusedConnection _ => true
  | _ => false
  end.

(** A result is shown although only failures are to be shown. *)
Definition isQuietDisplay (e : runner.Event) : bool :=
  match e with
  | runner.EvDisplayResult Failed | runner.EvDisplayResult ForceFail => false
  | runner.EvDisplayResult _ => true
  | _ => false
  end.

Definition isFileBanner (e : runner.Event) : bool :=
  match e with
  | runner.EvPrint msg => bytes.HasPrefix msg "=> executing tests in file "
  | _ => false
  end.

(** Bounds on how much one event of each kind adds to the count of [p];
    the prints are left free. *)
Definition weighs (p : runner.Event -> bool)
           (wStage wMark wReused wFresh wDo wShow : nat) : Prop :=
  forall e, p e = true ->
            match e with
            | runner.EvNewStageID _ => 1 <= wStage
            | runner.EvMarkAndFlush _ => 1 <= wMark
            | runner.EvNewOrReusedConnection _ => 1 <= wReused
            | runner.EvNewConnection _ => 1 <= wFresh
            | runner.EvDo _ => 1 <= wDo
            | runner.EvDisplayResult _ => 1 <= wShow
            | runner.EvPrint _ => True
            end.

(** The part of the context that a run only reads. *)
Definition sameSetup `{E : External} (rc rc' : runner.TestRunContext) : Prop :=
  runner.Config rc' = runner.Config rc /\
  runner.Include rc' = runner.Include rc /\
  runner.Exclude rc' = runner.Exclude rc /\
  runner.FailFast rc' = runner.FailFast rc /\
  runner.ShowOnlyFailed rc' = runner.ShowOnlyFailed rc.

End Counting.

(** More values of the concrete environment. *)
Module DemoMore.

Definition Stage_ := (option error * runner.TestRunContext (E := Demo.ext)
                      * check.FTWCheck (E := Demo.ext))%type.

Definition errOf (r : Outcome Stage_) : option error :=
  match r with
  | Returns (err, _, _) => err
  | Fatal msg => Some msg
  end.

Definition ctxOf (r : Outcome Stage_)
           (otherwise : runner.TestRunContext (E := Demo.ext))
  : runner.TestRunContext (E := Demo.ext) :=
  match r with
  | Returns (_, rc, _) => rc
  | Fatal _ => otherwise
  end.

Definition chkOf (r : Outcome Stage_)
           (otherwise : check.FTWCheck (E := Demo.ext))
  : check.FTWCheck (E := Demo.ext) :=
  match r with
  | Returns (_, _, c) => c
  | Fatal _ => otherwise
  end.

Definition loopCtxOf
           (r : Outcome (option error * runner.TestRunContext (E := Demo.ext)))
           (otherwise : runner.TestRunContext (E := Demo.ext))
  : runner.TestRunContext (E := Demo.ext) :=
  match r with
  | Returns (_, rc) => rc
  | Fatal _ => otherwise
  end.

(** A context with the options of the runner chosen. *)
Definition contextOpts (c : config.FTWConfiguration (@Regexp Demo.ext))
           (w : Demo.DemoWorld) (exclude : option string)
           (failFast quiet : bool)
  : runner.TestRunContext (E := Demo.ext) :=
  {| runner.Config := c; runner.Include := None; runner.Exclude := exclude;
     runner.FailFast := failFast; runner.ShowOnlyFailed := quiet;
     runner.Stats := []; runner.Result := Success;
     runner.world := w; runner.trace := [] |}.

Definition cloudCfg : config.FTWConfiguration (@Regexp Demo.ext) :=
  Demo.cfgWith config.CloudRunMode Demo.noOverride.

Definition start : runner.TestRunContext (E := Demo.ext) :=
  Demo.contextWith Demo.plainCfg Demo.freshLog.

Definition plainTest : schema.Test := Demo.test920100 [Demo.plainStage].

(** A stage that expects 200 against a target that answers 200. *)
Definition plainRun : Outcome Stage_ :=
  Eval vm_compute in
    runner.RunStage start (Demo.checkWith Demo.plainCfg) plainTest
                    Demo.plainStage.
Definition plainCtx : runner.TestRunContext (E := Demo.ext) :=
  Eval vm_compute in ctxOf plainRun start.
Definition plainChk : check.FTWCheck (E := Demo.ext) :=
  Eval vm_compute in chkOf plainRun (Demo.checkWith Demo.plainCfg).

(** The same stage in cloud mode. *)
Definition cloudStart : runner.TestRunContext (E := Demo.ext) :=
  Demo.contextWith cloudCfg Demo.freshLog.
Definition cloudRun : Outcome Stage_ :=
  Eval vm_compute in
    runner.RunStage cloudStart (Demo.checkWith cloudCfg) plainTest
                    Demo.plainStage.
Definition cloudCtx : runner.TestRunContext (E := Demo.ext) :=
  Eval vm_compute in ctxOf cloudRun cloudStart.
Definition cloudChk : check.FTWCheck (E := Demo.ext) :=
  Eval vm_compute in chkOf cloudRun (Demo.checkWith cloudCfg).

(** A stage that expects an error against a target that is down. *)
Definition errorStage : schema.Stage := Demo.stageExpecting 0 "" (Some true).
Definition downStart : runner.TestRunContext (E := Demo.ext) :=
  Demo.contextWith Demo.plainCfg (Demo.worldWith (Some []) 200 true).
Definition errorRun : Outcome Stage_ :=
  Eval vm_compute in
    runner.RunStage downStart (Demo.checkWith Demo.plainCfg)
                    (Demo.test920100 [errorStage]) errorStage.
Definition errorCtx : runner.TestRunContext (E := Demo.ext) :=
  Eval vm_compute in ctxOf errorRun downStart.
Definition errorChk : check.FTWCheck (E := Demo.ext) :=
  Eval vm_compute in chkOf errorRun (Demo.checkWith Demo.plainCfg).

(** The plain stage when only failures are to be shown. *)
Definition quietStart : runner.TestRunContext (E := Demo.ext) :=
  contextOpts Demo.plainCfg Demo.freshLog None false true.
Definition quietRun : Outcome Stage_ :=
  Eval vm_compute in
    runner.RunStage quietStart (Demo.checkWith Demo.plainCfg) plainTest
                    Demo.plainStage.
Definition quietCtx : runner.TestRunContext (E := Demo.ext) :=
  Eval vm_compute in ctxOf quietRun quietStart.
Definition quietChk : check.FTWCheck (E := Demo.ext) :=
  Eval vm_compute in chkOf quietRun (Demo.checkWith Demo.plainCfg).

(** Two stages in a row. *)
Definition twoStagesCtx : runner.TestRunContext (E := Demo.ext) :=
  Eval vm_compute in
    loopCtxOf (runner.runStages start plainTest
                                [Demo.plainStage; Demo.plainStage]) start.

(** One test file with one test case. *)
Definition plainFile : runner.FTWTest :=
  {| runner.MetaName := "REQUEST-920-PROTOCOL-ENFORCEMENT";
     runner.Tests := [plainTest] |}.
Definition plainFileCtx : runner.TestRunContext (E := Demo.ext) :=
  Eval vm_compute in loopCtxOf (runner.RunTest start plainFile) start.

(** A stage that expects 403 from a target that answers 200, under
    fail-fast. *)
Definition failingStage : schema.Stage := Demo.stageExpecting 403 "" None.
Definition failingTest : schema.Test := Demo.test920100 [failingStage].
Definition failFastStart : runner.TestRunContext (E := Demo.ext) :=
  contextOpts Demo.plainCfg Demo.freshLog None true false.
Definition failFastCtx : runner.TestRunContext (E := Demo.ext) :=
  Eval vm_compute in
    loopCtxOf (runner.RunTest failFastStart
                 {| runner.MetaName := "REQUEST-920";
                    runner.Tests := [failingTest] |}) failFastStart.

(** Every test of rule 920 is excluded. *)
Definition excludingStart : runner.TestRunContext (E := Demo.ext) :=
  contextOpts Demo.plainCfg Demo.freshLog (Some "920") false false.

Definition clientDefaults : runnerRun.ClientConfig :=
  {| runnerRun.clientConnectTimeout := 3000000000;
     runnerRun.clientReadTimeout := 1000000000;
     runnerRun.RateLimiter := None |}.

Definition runnerOpts : runnerRun.RunnerConfig (@Regexp Demo.ext) :=
  {| runnerRun.Include := None; runnerRun.Exclude := None;
     runnerRun.ShowTime := false; runnerRun.ShowOnlyFailed := false;
     runnerRun.ConnectTimeout := 0; runnerRun.ReadTimeout := 0;
     runnerRun.RateLimit := 0; runnerRun.FailFast := true |}.

Definition wholeRun
  : Outcome (runnerRun.RunReturn (runner.TestRunContext (E := Demo.ext))) :=
  Eval vm_compute in
    runnerRun.Run clientDefaults (fun _ _ => None) Success
                  Demo.plainCfg [plainFile] runnerOpts Demo.freshLog.

End DemoMore.

(* ------------------------------------------------------------------ *)
(** ** Facts about the byte-slice helpers *)

Unset Implicit Arguments.

Module BytesFacts.

Lemma HasPrefix_iff (b sub : string) :
  bytes.HasPrefix b sub = true <-> exists post, b = (sub ++ post)%string.
Proof.
  revert b; induction sub as [|x sub IH]; intros b; simpl.
  - split; [intros _; now exists b | reflexivity].
  - destruct b as [|y b].
    + split; [discriminate | intros [post Hp]; discriminate].
    + rewrite andb_true_iff, IH, Ascii.eqb_eq. split.
      * intros [-> [post ->]]. now exists post.
      * intros [post Hp]. injection Hp as -> ->. split; [reflexivity|].
        now exists post.
Qed.

(** [Contains b sub] holds exactly when [sub] is a substring of [b]. *)
Lemma Contains_iff (b sub : string) :
  bytes.Contains b sub = true <->
  exists pre post, b = (pre ++ sub ++ post)%string.
Proof.
  induction b as [|y b IH]; simpl.
  - rewrite orb_false_r, HasPrefix_iff. split.
    + intros [post Hp]. now exists EmptyString, post.
    + intros [pre [post Hp]]. destruct pre; simpl in Hp.
      * now exists post.
      * discriminate.
  - rewrite orb_true_iff, HasPrefix_iff, IH. split.
    + intros [[post Hp] | [pre [post Hp]]].
      * now exists EmptyString, post.
      * exists (String y pre), post. simpl. now rewrite Hp.
    + intros [pre [post Hp]]. destruct pre as [|z pre]; simpl in Hp.
      * left. now exists post.
      * right. injection Hp as _ Hp. now exists pre, post.
Qed.

Lemma Contains_empty (b : string) : bytes.Contains b "" = true.
Proof. destruct b; reflexivity. Qed.

Lemma lowerByte_idem (c : ascii) :
  bytes.lowerByte (bytes.lowerByte c) = bytes.lowerByte c.
Proof.
  destruct c as [[] [] [] [] [] [] [] []]; reflexivity.
Qed.

Lemma ToLower_idem (s : string) :
  bytes.ToLower (bytes.ToLower s) = bytes.ToLower s.
Proof.
  induction s as [|c s IH]; simpl; [reflexivity|].
  now rewrite lowerByte_idem, IH.
Qed.

Lemma Equal_eq (a b : string) : bytes.Equal a b = true <-> a = b.
Proof. apply String.eqb_eq. Qed.

Lemma Equal_neq (a b : string) : bytes.Equal a b = false <-> a <> b.
Proof. apply String.eqb_neq. Qed.

End BytesFacts.

(* ------------------------------------------------------------------ *)
(** ** The marker scanner *)

Module WaflogFacts.
Import waflog.
Import Criteria.

(** Before the end marker is met, every line is collected. *)
Lemma markedLoop_before_end (ll : FTWLogLines) (after scan found : list string) :
  Forall (fun l => bytes.ToLower l <> EndMarker ll) after ->
  markedLoop ll (after ++ scan) false found =
  markedLoop ll scan false (found ++ after).
Proof.
  intros Hafter; revert found.
  induction Hafter as [|l after Hl _ IH]; intros found; simpl.
  - now rewrite app_nil_r.
  - apply BytesFacts.Equal_neq in Hl. rewrite Hl. simpl.
    rewrite IH. now rewrite <- app_assoc.
Qed.

(** Once the end marker was met, lines are collected up to the start
    marker. *)
Lemma markedLoop_until_start (ll : FTWLogLines)
      (between : list string) (s : string) (rest found : list string) :
  Forall (fun l => bytes.ToLower l <> StartMarker ll) between ->
  bytes.ToLower s = StartMarker ll ->
  markedLoop ll (between ++ s :: rest) true found = found ++ between.
Proof.
  intros Hb Hs; revert found.
  induction Hb as [|l between Hl _ IH]; intros found; simpl.
  - apply BytesFacts.Equal_eq in Hs. rewrite Hs. now rewrite app_nil_r.
  - apply BytesFacts.Equal_neq in Hl. rewrite Hl.
    rewrite IH. now rewrite <- app_assoc.
Qed.

Lemma markedLoop_no_start (ll : FTWLogLines) (scan found : list string) :
  Forall (fun l => bytes.ToLower l <> StartMarker ll) scan ->
  markedLoop ll scan true found = found ++ scan.
Proof.
  intros Hs; revert found.
  induction Hs as [|l scan Hl _ IH]; intros found; simpl.
  - now rewrite app_nil_r.
  - apply BytesFacts.Equal_neq in Hl. rewrite Hl.
    rewrite IH. now rewrite <- app_assoc.
Qed.

(** The window of a log [pre ++ s :: mid ++ e :: post], where [e] is the
    last end-marker line and [s] the last start-marker line before it:
    the lines after [e], then the lines between the markers, newest
    first. *)
Lemma getMarkedLines_shape (ll : FTWLogLines)
      (pre mid post : list string) (s e : string) :
  bytes.ToLower s = StartMarker ll ->
  bytes.ToLower e = EndMarker ll ->
  Forall (fun l => bytes.ToLower l <> StartMarker ll) mid ->
  Forall (fun l => bytes.ToLower l <> EndMarker ll) post ->
  getMarkedLines ll (Some (pre ++ s :: mid ++ e :: post)) =
  rev post ++ rev mid.
Proof.
  intros Hs He Hmid Hpost. unfold getMarkedLines, backscan.
  rewrite rev_app_distr. simpl. rewrite rev_app_distr. simpl.
  repeat rewrite <- app_assoc. simpl.
  rewrite markedLoop_before_end by (now apply Forall_rev).
  simpl. apply BytesFacts.Equal_eq in He. rewrite He. simpl.
  rewrite markedLoop_until_start; [reflexivity | now apply Forall_rev | exact Hs].
Qed.

(** When the end marker is the last line of the file, the window is what
    lies strictly between the two markers, newest first. *)
Lemma getMarkedLines_end_marker_last (ll : FTWLogLines)
      (pre mid : list string) (s e : string) :
  bytes.ToLower s = StartMarker ll ->
  bytes.ToLower e = EndMarker ll ->
  Forall (fun l => bytes.ToLower l <> StartMarker ll) mid ->
  getMarkedLines ll (Some (pre ++ s :: mid ++ [e])) = rev mid.
Proof.
  intros Hs He Hmid.
  now rewrite (getMarkedLines_shape ll pre mid [] s e).
Qed.

(** Every line written after the last end-marker line is in the window. *)
Lemma getMarkedLines_lines_after_end (ll : FTWLogLines)
      (pre post : list string) (e l : string) :
  Forall (fun l => bytes.ToLower l <> EndMarker ll) post ->
  In l post ->
  In l (getMarkedLines ll (Some (pre ++ e :: post))).
Proof.
  intros Hpost Hin. unfold getMarkedLines, backscan.
  rewrite rev_app_distr. simpl. rewrite <- app_assoc.
  rewrite markedLoop_before_end by (now apply Forall_rev).
  assert (Hgrow : forall scan b found,
             In l found -> In l (markedLoop ll scan b found)).
  { induction scan as [|x scan IH]; intros b found Hf; simpl; [exact Hf|].
    destruct (negb b && bytes.Equal (bytes.ToLower x) (EndMarker ll));
      [now apply IH|].
    destruct (b && bytes.Equal (bytes.ToLower x) (StartMarker ll));
      [exact Hf|].
    apply IH, in_or_app. now left. }
  apply Hgrow. cbn [app]. now apply in_rev in Hin.
Qed.

Ltac zcases :=
  repeat match goal with
         | |- context [(?a >? ?b)%Z] => destruct (Z.gtb_spec a b)
         | |- context [(?a <=? ?b)%Z] => destruct (Z.leb_spec a b)
         end;
  try lia.

Lemma markerLoop_nil (h : string) (readLimit c : Z) :
  markerLoop h readLimit [] c =
  if (c >? readLimit)%Z then Aborted c else ReachedEOF (c + 1).
Proof. reflexivity. Qed.

Lemma markerLoop_cons (h : string) (readLimit c : Z)
      (l : string) (rest : list string) :
  markerLoop h readLimit (l :: rest) c =
  if (c >? readLimit)%Z then Aborted c
  else if bytes.Contains (bytes.ToLower l) h
       then HeaderFound (bytes.ToLower l) (c + 1)
       else markerLoop h readLimit rest (c + 1).
Proof. reflexivity. Qed.

(** Past the limit the loop gives up before it reads a line. *)
Lemma markerLoop_over_limit (h : string) (readLimit c : Z)
      (scan : list string) :
  (readLimit < c)%Z -> markerLoop h readLimit scan c = Aborted c.
Proof.
  intros Hc. destruct scan;
    [rewrite markerLoop_nil | rewrite markerLoop_cons]; zcases; reflexivity.
Qed.

(** The search loop on a scan without any header line. *)
Lemma markerLoop_no_header (h : string) (readLimit : Z) (scan : list string) :
  Forall (fun l => bytes.Contains (bytes.ToLower l) h = false) scan ->
  forall c, (c <= readLimit)%Z ->
  markerLoop h readLimit scan c =
  if (c + Z.of_nat (length scan) <=? readLimit)%Z
  then ReachedEOF (c + Z.of_nat (length scan) + 1)
  else Aborted (readLimit + 1).
Proof.
  induction 1 as [|l scan Hl _ IH]; intros c Hc.
  - rewrite markerLoop_nil. cbn [length]. zcases. f_equal. lia.
  - rewrite markerLoop_cons, Hl. cbn [length].
    destruct (Z.eq_dec c readLimit) as [->|Hne].
    + rewrite markerLoop_over_limit by lia. zcases. reflexivity.
    + rewrite IH by lia. zcases; f_equal; lia.
Qed.

(** The search loop on a scan whose first header line is [line]. *)
Lemma markerLoop_first_header (h : string) (readLimit : Z)
      (pre : list string) (line : string) (post : list string) :
  Forall (fun l => bytes.Contains (bytes.ToLower l) h = false) pre ->
  bytes.Contains (bytes.ToLower line) h = true ->
  forall c, (c <= readLimit)%Z ->
  markerLoop h readLimit (pre ++ line :: post) c =
  if (c + Z.of_nat (length pre) <=? readLimit)%Z
  then HeaderFound (bytes.ToLower line) (c + Z.of_nat (length pre) + 1)
  else Aborted (readLimit + 1).
Proof.
  intros Hpre Hline.
  induction Hpre as [|l pre Hl _ IH]; intros c Hc.
  - cbn [app length]. rewrite markerLoop_cons, Hline. zcases. f_equal. lia.
  - cbn [app length]. rewrite markerLoop_cons, Hl.
    destruct (Z.eq_dec c readLimit) as [->|Hne].
    + rewrite markerLoop_over_limit by lia. zcases. reflexivity.
    + rewrite IH by lia. zcases; f_equal; lia.
Qed.

(** Whatever the loop returns as header line is the lowercase form of the
    first line of the scan that contains the header. *)
Lemma markerLoop_HeaderFound_inv (h : string) (readLimit : Z)
      (scan : list string) :
  forall c m n,
  markerLoop h readLimit scan c = HeaderFound m n ->
  exists pre line post,
    scan = pre ++ line :: post /\
    Forall (fun l => bytes.Contains (bytes.ToLower l) h = false) pre /\
    bytes.Contains (bytes.ToLower line) h = true /\
    m = bytes.ToLower line /\
    n = (c + Z.of_nat (length pre) + 1)%Z /\
    (c + Z.of_nat (length pre) <= readLimit)%Z.
Proof.
  induction scan as [|l scan IH]; intros c m n.
  - rewrite markerLoop_nil. destruct (c >? readLimit)%Z; discriminate.
  - rewrite markerLoop_cons.
    destruct (Z.gtb_spec c readLimit) as [Hgt|Hle]; [discriminate|].
    destruct (bytes.Contains (bytes.ToLower l) h) eqn:Hl.
    + intros Heq. injection Heq as <- <-.
      exists [], l, scan. cbn [app length]. repeat split; auto; lia.
    + intros Heq. apply IH in Heq.
      destruct Heq as (pre & line & post & -> & Hpre & Hline & -> & -> & Hle').
      exists (l :: pre), line, post. cbn [app length].
      repeat split; auto; lia.
Qed.

(** The search never reads more than [readLimit + 1] lines. *)
Lemma linesInspected_bound (header : string) (lines : list string)
      (readLimit : Z) :
  (0 <= readLimit)%Z ->
  (0 <= linesInspected header lines readLimit <= readLimit + 1)%Z.
Proof.
  intros Hlim. unfold linesInspected.
  assert (Hgen : forall scan c, (0 <= c <= readLimit + 1)%Z ->
             match markerLoop (bytes.ToLower header) readLimit scan c with
             | Aborted n => (c <= n <= readLimit + 1)%Z
             | ReachedEOF n => (c <= n - 1 <= readLimit + 1)%Z
             | HeaderFound _ n => (c <= n <= readLimit + 1)%Z
             end).
  { induction scan as [|l scan IH]; intros c Hc.
    - rewrite markerLoop_nil. zcases.
    - rewrite markerLoop_cons. zcases.
      destruct (bytes.Contains (bytes.ToLower l) (bytes.ToLower header));
        [lia|].
      specialize (IH (c + 1)%Z ltac:(lia)).
      destruct (markerLoop (bytes.ToLower header) readLimit scan (c + 1)); lia. }
  specialize (Hgen (backscan lines) 0%Z ltac:(lia)).
  destruct (markerLoop (bytes.ToLower header) readLimit (backscan lines) 0); lia.
Qed.

(** Without any header line in a file of more than [readLimit] lines, the
    search reads [readLimit + 1] lines and then signals that it aborted. *)
Lemma CheckLogForMarker_absent_marker (header stageID : string)
      (lines : list string) (readLimit : Z) :
  (0 <= readLimit < Z.of_nat (length lines))%Z ->
  Forall (fun l => hasHeader header l = false) lines ->
  CheckLogForMarker header (Some lines) stageID readLimit = (None, true) /\
  linesInspected header lines readLimit = (readLimit + 1)%Z.
Proof.
  intros Hlen Hno. unfold CheckLogForMarker, linesInspected.
  rewrite markerLoop_no_header; [| now apply Forall_rev | lia].
  unfold backscan. rewrite length_rev. zcases. now split.
Qed.

(** In a shorter file without header line the search ends at the
    beginning of the file and does not signal an abort. *)
Lemma CheckLogForMarker_short_file (header stageID : string)
      (lines : list string) (readLimit : Z) :
  (Z.of_nat (length lines) <= readLimit)%Z ->
  Forall (fun l => hasHeader header l = false) lines ->
  CheckLogForMarker header (Some lines) stageID readLimit = (None, false).
Proof.
  intros Hlen Hno. unfold CheckLogForMarker.
  rewrite markerLoop_no_header; [| now apply Forall_rev | lia].
  unfold backscan. rewrite length_rev. zcases. reflexivity.
Qed.

(** C2 (code departs from the claim).  The window is claimed to consist
    exactly of the lines strictly between the start-marker line and the
    end-marker line, with no line written after the end-marker line.  On
    the log below [getMarkedLines] also returns the line that follows the
    end-marker line: lines read before the end marker is met are appended
    to the window. *)
Theorem getMarkedLines_collects_line_after_end_marker :
  let ll := {| StartMarker := "x-crs-test: 1b4e28ba start";
               EndMarker := "x-crs-test: 1b4e28ba end" |} in
  let file := ["X-CRS-Test: 1b4e28ba start";
               "ModSecurity: Warning. [id 911100]";
               "X-CRS-Test: 1b4e28ba end";
               "AH00128: File does not exist"] in
  getMarkedLines ll (Some file) =
    ["AH00128: File does not exist"; "ModSecurity: Warning. [id 911100]"]
  /\ In "AH00128: File does not exist" (getMarkedLines ll (Some file)).
Proof.
  cbv zeta. split; [reflexivity | left; reflexivity].
Qed.

(** C4, as stated, fails: the newest line of the first log carries the
    marker header of another stage; the line before it contains both the
    header name and the stage ID and lies within the limit, yet the search
    reports not-found.  In the second log the only line contains the header
    name and the stage ID letter for letter, but the stage ID has uppercase
    letters and the search, which compares it with the lowercased line,
    reports not-found as well. *)
Lemma CheckLogForMarker_stops_at_newest_header_line :
  let lines := ["X-CRS-Test: 1b4e28ba"; "X-CRS-Test: 6fa459ea"] in
  ((exists line,
       In line lines /\
       hasHeader "X-CRS-Test" line = true /\
       hasStageID "1b4e28ba" line = true) /\
   (Z.of_nat (length lines) <= 10)%Z /\
   CheckLogForMarker "X-CRS-Test" (Some lines) "1b4e28ba" 10 = (None, false)) /\
  (hasHeader "X-CRS-Test" "X-CRS-Test: 1B4E28BA" = true /\
   hasStageID "1B4E28BA" "X-CRS-Test: 1B4E28BA" = true /\
   bytes.Contains "X-CRS-Test: 1B4E28BA" "1B4E28BA" = true /\
   CheckLogForMarker "X-CRS-Test" (Some ["X-CRS-Test: 1B4E28BA"]) "1B4E28BA" 10
   = (None, false)).
Proof.
  cbv zeta. split.
  - split; [|split; [cbn; lia | reflexivity]].
    exists "X-CRS-Test: 1b4e28ba".
    split; [left; reflexivity | split; reflexivity].
  - repeat split.
Qed.

(** C4, amended.  For a lowercase stage ID the search walks backward to
    the newest line that contains the marker-header name, compared
    case-insensitively, and looks no further.  When that line is among the
    newest [readLimit] lines, the search succeeds exactly when the line
    also contains the stage ID and then returns the line in lowercase;
    otherwise it reports not-found.  Whenever the search succeeds, its
    result is the lowercase form of that newest header line and contains
    both the header name and the stage ID. *)
Theorem CheckLogForMarker_newest_header_line_decides
        (header stageID : string) (lines : list string) (readLimit : Z) :
  bytes.ToLower stageID = stageID ->
  (forall pre line post,
      backscan lines = pre ++ line :: post ->
      Forall (fun l => hasHeader header l = false) pre ->
      hasHeader header line = true ->
      (Z.of_nat (length pre) < readLimit)%Z ->
      CheckLogForMarker header (Some lines) stageID readLimit =
      if hasStageID stageID line then (Some (bytes.ToLower line), false)
      else (None, false)) /\
  (forall m aborted,
      CheckLogForMarker header (Some lines) stageID readLimit
      = (Some m, aborted) ->
      aborted = false /\
      exists pre line post,
        backscan lines = pre ++ line :: post /\
        Forall (fun l => hasHeader header l = false) pre /\
        m = bytes.ToLower line /\
        hasHeader header line = true /\
        hasStageID stageID line = true).
Proof.
  intros Hlower. unfold hasStageID. rewrite Hlower. split.
  - intros pre line post Hscan Hpre Hline Hlen. unfold CheckLogForMarker.
    rewrite Hscan, markerLoop_first_header by (auto; lia).
    zcases. reflexivity.
  - intros m aborted. unfold CheckLogForMarker.
    destruct (markerLoop (bytes.ToLower header) readLimit (backscan lines) 0)
      as [n|n|found n] eqn:Hloop; try discriminate.
    destruct (bytes.Contains found stageID) eqn:Hid; [|discriminate].
    intros Heq. injection Heq as <- <-. split; [reflexivity|].
    apply markerLoop_HeaderFound_inv in Hloop.
    destruct Hloop as (pre & line & post & Hscan & Hpre & Hline & -> & _ & _).
    exists pre, line, post. repeat split; auto.
Qed.

(** The amended C4 on a log whose newest header line is the second line
    from the end. *)
Lemma CheckLogForMarker_newest_header_line_decides_witness :
  bytes.ToLower "1b4e28ba" = "1b4e28ba" /\
  CheckLogForMarker "X-CRS-Test"
    (Some ["GET / HTTP/1.1"; "X-CRS-Test: 1B4E28BA (probe)"; "AH00128"])
    "1b4e28ba" 10
  = (Some "x-crs-test: 1b4e28ba (probe)", false).
Proof.
  split; [reflexivity|].
  apply (proj1 (CheckLogForMarker_newest_header_line_decides
                  "X-CRS-Test" "1b4e28ba"
                  ["GET / HTTP/1.1"; "X-CRS-Test: 1B4E28BA (probe)"; "AH00128"]
                  10 eq_refl)
               ["AH00128"] "X-CRS-Test: 1B4E28BA (probe)" ["GET / HTTP/1.1"]).
  - reflexivity.
  - repeat constructor.
  - reflexivity.
  - cbn. lia.
Defined.

(** C6 (code departs from the claim).  The search is claimed to inspect at
    most the configured maximum number of lines.  With a limit of one
    line, the search reads two: it returns a marker that is the second
    line from the end, and on a log without marker it gives up only after
    the second line. *)
Theorem CheckLogForMarker_reads_one_line_beyond_limit :
  let lines := ["X-CRS-Test: 1b4e28ba"; "AH00128: File does not exist"] in
  let noise := ["GET / HTTP/1.1"; "AH00128"; "AH00129"] in
  CheckLogForMarker "X-CRS-Test" (Some lines) "1b4e28ba" 1
  = (Some "x-crs-test: 1b4e28ba", false) /\
  linesInspected "X-CRS-Test" lines 1 = 2%Z /\
  CheckLogForMarker "X-CRS-Test" (Some noise) "1b4e28ba" 1 = (None, true) /\
  linesInspected "X-CRS-Test" noise 1 = 2%Z.
Proof.
  cbv zeta. repeat split; reflexivity.
Qed.

Section WithExternal.
Context `{E : External}.

(** C10.  Whatever the pattern, well-formed or not, and whether or not
    it matches the empty string, [Contains] returns false when the
    window of marked lines is empty. *)
Theorem Contains_empty_window (ll : FTWLogLines)
        (file : option (list string)) (match_ : string) :
  getMarkedLines ll file = [] ->
  Contains ll file match_ = Returns false.
Proof.
  intros Hw. unfold Contains. now rewrite Hw.
Qed.

(** A file that cannot be opened gives an empty window. *)
Lemma getMarkedLines_no_file (ll : FTWLogLines) :
  getMarkedLines ll None = [].
Proof. reflexivity. Qed.

(** [Contains] on a window and a well-formed pattern: some line of the
    window matches. *)
Lemma containsLoop_compiled (match_ : string) (re : Regexp)
      (lines : list string) :
  regexp_Compile match_ = Some re ->
  containsLoop match_ lines = Returns (existsb (Regexp_Match re) lines).
Proof.
  intros Hre. induction lines as [|l lines IH]; simpl; [reflexivity|].
  unfold regexp_Match. rewrite Hre.
  destruct (Regexp_Match re l); [reflexivity | exact IH].
Qed.

End WithExternal.

(** C10 on a log file that cannot be opened, with the empty pattern. *)
Lemma Contains_empty_window_witness :
  getMarkedLines {| StartMarker := ""; EndMarker := "" |} None = [] /\
  Contains (E := Demo.ext) {| StartMarker := ""; EndMarker := "" |} None ""
  = Returns false.
Proof.
  split; [reflexivity|].
  apply (Contains_empty_window (E := Demo.ext)). reflexivity.
Defined.

End WaflogFacts.

(* ------------------------------------------------------------------ *)
(** ** The expectation checker *)

Module CheckFacts.
Import Criteria.

Section WithExternal.
Context `{E : External}.

Lemma AssertStatus_iff (c : check.FTWCheck) (r : ftwhttp.Response) :
  check.AssertStatus c (ftwhttp.StatusCode r) = true <-> statusHolds c r.
Proof.
  unfold check.AssertStatus, statusHolds.
  destruct (Z.eqb_spec (test.Status (check.expected c)) 0) as [H0|H0].
  - split; [now left | reflexivity].
  - rewrite Z.eqb_eq. split.
    + intros H. right. now symmetry.
    + intros [H|H]; [contradiction | now symmetry].
Qed.

Lemma AssertResponseContains_iff (c : check.FTWCheck) (r : ftwhttp.Response) :
  check.AssertResponseContains c (ftwhttp.GetFullResponse r) = true
  <-> contentHolds c r.
Proof.
  unfold check.AssertResponseContains, contentHolds.
  destruct (String.eqb_spec (test.ResponseContains (check.expected c)) "")
    as [H0|H0].
  - split; [now left | reflexivity].
  - rewrite BytesFacts.Contains_iff. split.
    + intros H. now right.
    + intros [H|H]; [contradiction | exact H].
Qed.

Lemma existsb_matchesLine (p : string) (re : Regexp) (lines : list string) :
  regexp_Compile p = Some re ->
  existsb (Regexp_Match re) lines = true <->
  exists line, In line lines /\ matchesLine p line.
Proof.
  intros Hre. rewrite existsb_exists. unfold matchesLine. split.
  - intros (line & Hin & Hm). exists line. split; [exact Hin|]. now exists re.
  - intros (line & Hin & re' & Hre' & Hm). exists line. split; [exact Hin|].
    rewrite Hre in Hre'. now injection Hre' as ->.
Qed.

Lemma wellFormed_compiles (p : string) :
  wellFormed p -> p <> "" -> exists re, regexp_Compile p = Some re.
Proof.
  intros [H|H] Hne; [contradiction|].
  destruct (regexp_Compile p) as [re|]; [now exists re | contradiction].
Qed.

Lemma AssertLogContains_iff (c : check.FTWCheck) (file : option (list string)) :
  wellFormed (test.LogContains (check.expected c)) ->
  exists b, check.AssertLogContains c file = Returns b /\
            (b = true <-> logContainsHolds c file).
Proof.
  intros Hwf. unfold check.AssertLogContains, logContainsHolds.
  destruct (String.eqb_spec (test.LogContains (check.expected c)) "")
    as [H0|H0].
  - exists true. split; [reflexivity|]. split; [now left | reflexivity].
  - destruct (wellFormed_compiles _ Hwf H0) as [re Hre].
    unfold waflog.Contains.
    rewrite (WaflogFacts.containsLoop_compiled _ re _ Hre).
    eexists. split; [reflexivity|].
    rewrite (existsb_matchesLine _ re _ Hre). unfold window. split.
    + intros H. now right.
    + intros [H|H]; [contradiction | exact H].
Qed.

Lemma AssertNoLogContains_iff (c : check.FTWCheck)
      (file : option (list string)) :
  wellFormed (test.NoLogContains (check.expected c)) ->
  exists b, check.AssertNoLogContains c file = Returns b /\
            (b = true <-> logNotContainsHolds c file).
Proof.
  intros Hwf. unfold check.AssertNoLogContains, logNotContainsHolds.
  destruct (String.eqb_spec (test.NoLogContains (check.expected c)) "")
    as [H0|H0].
  - exists true. split; [reflexivity|]. split; [now left | reflexivity].
  - destruct (wellFormed_compiles _ Hwf H0) as [re Hre].
    unfold waflog.Contains.
    rewrite (WaflogFacts.containsLoop_compiled _ re _ Hre). simpl.
    eexists. split; [reflexivity|].
    rewrite negb_true_iff, <- not_true_iff_false.
    rewrite (existsb_matchesLine _ re _ Hre). unfold window. split.
    + intros H. right. intros line Hin Hm. apply H. now exists line.
    + intros [H|H]; [contradiction|].
      intros (line & Hin & Hm). exact (H line Hin Hm).
Qed.

Lemma AssertLogs_iff (c : check.FTWCheck) (file : option (list string)) :
  wellFormed (test.LogContains (check.expected c)) ->
  wellFormed (test.NoLogContains (check.expected c)) ->
  exists b, check.AssertLogs c file = Returns b /\
            (b = true <-> logContainsHolds c file /\ logNotContainsHolds c file).
Proof.
  intros Hwf1 Hwf2. unfold check.AssertLogs.
  destruct (AssertLogContains_iff c file Hwf1) as (b1 & -> & Hb1).
  destruct (AssertNoLogContains_iff c file Hwf2) as (b2 & Hn & Hb2).
  simpl. destruct b1.
  - exists b2. split; [exact Hn|]. rewrite <- Hb1, <- Hb2. tauto.
  - exists false. split; [reflexivity|]. rewrite <- Hb1.
    split; [discriminate | intros [H _]; exact H].
Qed.

(** The verdict of [checkResult] for a stage that expects no error, met
    no error and has a response. *)
Lemma checkResult_reflects_criteria (c : check.FTWCheck)
      (r : ftwhttp.Response) (file : option (list string)) :
  runner.boolOf (test.ExpectError (check.expected c)) = false ->
  wellFormed (test.LogContains (check.expected c)) ->
  wellFormed (test.NoLogContains (check.expected c)) ->
  exists b : bool,
    runner.checkResult c (Some r) None file
    = Returns (if b then Success else Failed) /\
    (b = true <-> criteriaHold c r file).
Proof.
  intros Hexp Hwf1 Hwf2.
  unfold runner.checkResult, runner.checkResultWith, criteriaHold.
  cbn [runner.assertExpectError runner.assertStatus
       runner.assertResponseContains runner.assertLogs
       runner.checkAssertions].
  unfold check.AssertExpectError. unfold runner.boolOf in Hexp.
  rewrite Hexp. cbn [andb orb negb].
  pose proof (AssertStatus_iff c r) as Hs.
  pose proof (AssertResponseContains_iff c r) as Hc.
  destruct (AssertLogs_iff c file Hwf1 Hwf2) as (bl & Hl & Hbl).
  destruct (check.AssertStatus c (ftwhttp.StatusCode r)); cbn [negb].
  - destruct (check.AssertResponseContains c (ftwhttp.GetFullResponse r));
      cbn [negb].
    + rewrite Hl. cbn [bindO]. exists bl. split.
      * now destruct bl.
      * rewrite Hbl. tauto.
    + exists false. split; [reflexivity|].
      split; [discriminate|]. intros (_ & H & _). now apply Hc in H.
  - exists false. split; [reflexivity|].
    split; [discriminate|]. intros (H & _). now apply Hs in H.
Qed.


(** C5.  Whatever the other assertions are: when the stage expects an
    error, the verdict is Success if an error occurred and Failed if none
    did; when it expects none and an error occurred, the verdict is
    Failed; without error and without response the verdict is Failed.
    The status, content and log assertions do not enter these verdicts,
    so none of them is evaluated. *)
Theorem checkResult_error_expectation_first
        (status : check.FTWCheck -> Z -> bool)
        (content : check.FTWCheck -> string -> bool)
        (logs : check.FTWCheck -> option (list string) -> Outcome bool)
        (c : check.FTWCheck) (response : option ftwhttp.Response)
        (responseError : option error) (file : option (list string)) :
  let A := {| runner.assertExpectError := check.AssertExpectError;
              runner.assertStatus := status;
              runner.assertResponseContains := content;
              runner.assertLogs := logs |} in
  let expectErr := runner.boolOf (test.ExpectError (check.expected c)) in
  let verdict := runner.checkResultWith A c response responseError file in
  (expectErr = true -> responseError <> None -> verdict = Returns Success) /\
  (expectErr = true -> responseError = None -> verdict = Returns Failed) /\
  (expectErr = false -> responseError <> None -> verdict = Returns Failed) /\
  (responseError = None -> response = None -> verdict = Returns Failed).
Proof.
  cbv zeta. unfold runner.checkResultWith, runner.boolOf.
  cbn [runner.assertExpectError]. unfold check.AssertExpectError.
  destruct (test.ExpectError (check.expected c)) as [[|]|];
    destruct responseError as [e|]; destruct response as [r|];
    cbn [andb orb negb]; repeat split; intros; try reflexivity;
    try discriminate; try congruence.
Qed.

End WithExternal.



(** C5 on an expected time-out, with later assertions that would fail or
    end the run if they were evaluated. *)
Lemma checkResult_error_expectation_first_witness :
  let cfg := Demo.cfgWith config.DefaultRunMode Demo.noOverride in
  let c := check.SetExpectTestOutput (Demo.checkWith cfg)
             (Demo.outputWith 200 "(" (Some true) None) in
  runner.checkResultWith (E := Demo.ext)
    {| runner.assertExpectError := check.AssertExpectError;
       runner.assertStatus := fun _ _ => false;
       runner.assertResponseContains := fun _ _ => false;
       runner.assertLogs := fun _ _ => Fatal "ftw/waflog: bad regexp" |}
    c None (Some "dial tcp: i/o timeout") (Some ["a line"])
  = Returns Success.
Proof.
  cbv zeta.
  apply (checkResult_error_expectation_first (E := Demo.ext)).
  - reflexivity.
  - discriminate.
Defined.

End CheckFacts.

(* ------------------------------------------------------------------ *)
(** ** The stage executor *)

Module RunnerFacts.
Import Criteria.
Import runner.

Lemma stageRuns_app (a b : list Event) :
  stageRuns (a ++ b) = stageRuns a + stageRuns b.
Proof.
  unfold stageRuns. now rewrite filter_app, length_app.
Qed.

Section WithExternal.
Context `{E : External}.

Lemma stageRuns_emit (rc : TestRunContext) (e : Event) :
  stageRuns (trace (emit rc e)) =
  stageRuns (trace rc) + (if isStageStart e then 1 else 0).
Proof.
  cbn [emit trace]. rewrite stageRuns_app. unfold stageRuns at 2.
  cbn [filter]. now destruct (isStageStart e).
Qed.

Lemma stageRuns_displayResult (rc : TestRunContext) (r : TestResult) :
  stageRuns (trace (displayResult rc r)) = stageRuns (trace rc).
Proof.
  unfold displayResult.
  destruct r; try destruct (negb (ShowOnlyFailed rc));
    try rewrite stageRuns_emit; cbn [isStageStart]; lia.
Qed.

Ltac count_runs :=
  repeat first
    [ rewrite stageRuns_emit
    | rewrite stageRuns_displayResult
    | progress cbn [setWorld setResult addStat addResultToStats
                    addStageResultToStats trace isStageStart] ];
  try lia.

Lemma markLoop_stageRuns (i : nat) :
  forall rc dest req stageID res rc',
    markLoop i rc dest req stageID = (res, rc') ->
    stageRuns (trace rc') = stageRuns (trace rc).
Proof.
  induction i as [|i IH]; intros rc dest req stageID res rc'; cbn [markLoop].
  - intros H. now injection H as _ <-.
  - destruct (Client_NewOrReusedConnection dest (world rc)) as [err w].
    destruct err as [e|].
    + intros H. injection H as _ <-. count_runs.
    + cbn [world emit setWorld].
      destruct (Client_Do req w) as [[resp err] w'].
      destruct err as [e|].
      * intros H. injection H as _ <-.
        count_runs.
      * match goal with
        | |- context [fst ?x] => destruct (fst x) as [m|]
        end.
        -- intros H. injection H as _ <-.
           count_runs.
        -- intros H. apply IH in H. rewrite H. count_runs.
Qed.

Lemma markAndFlush_stageRuns (rc rc' : TestRunContext)
      (dest : ftwhttp.Destination) (stageID : string)
      (res : string * option error) :
  markAndFlush rc dest stageID = (res, rc') ->
  stageRuns (trace rc') = stageRuns (trace rc).
Proof.
  unfold markAndFlush. intros H. apply markLoop_stageRuns in H.
  rewrite H. count_runs.
Qed.

Lemma hardError_inv (expectErr : bool) (prefix : string)
      (err : option error) (e : error) :
  hardError expectErr prefix err = Some e ->
  exists e0, e = (prefix ++ e0)%string.
Proof.
  unfold hardError. destruct err as [e0|]; [|discriminate].
  destruct (negb expectErr); [|discriminate].
  intros H. injection H as <-. now exists e0.
Qed.

Lemma checkTestSanity_iff (i : test.Input) :
  checkTestSanity i = true <-> 1 < suppliedSources i.
Proof.
  unfold checkTestSanity, suppliedSources.
  destruct (IsNotEmpty (test.Data i));
    destruct (String.eqb (test.EncodedRequest i) "");
    destruct (String.eqb (test.RAWRequest i) "");
    cbn; split; intros; try reflexivity; try discriminate; lia.
Qed.

(** Case analysis of the hypotheses that unfold [RunStage]. *)
Ltac stage_cases :=
  repeat match goal with
         | H : Returns _ = Fatal _ |- _ => discriminate H
         | H : Fatal _ = Returns _ |- _ => discriminate H
         | H : Some _ = None |- _ => discriminate H
         | H : None = Some _ |- _ => discriminate H
         | H : Returns _ = Returns _ |- _ => injection H as H; subst
         | H : (_, _) = (_, _) |- _ =>
             first [discriminate H | injection H as ? ?; subst]
         | H : context [match ?x with _ => _ end] |- _ => destruct x eqn:?
         end.

Ltac count_stage_runs :=
  repeat first
    [ rewrite stageRuns_emit
    | rewrite stageRuns_displayResult
    | progress cbn [setWorld setResult addStat addResultToStats
                    addStageResultToStats trace isStageStart]
    | match goal with
      | Hm : stageRuns (trace ?t) = _ |- context [stageRuns (trace ?t)] =>
          rewrite Hm
      end ];
  try lia.

Lemma TestResult_eqb_eq (a b : TestResult) :
  TestResult_eqb a b = true <-> a = b.
Proof. destruct a, b; cbn; split; intros; congruence. Qed.

(** The run ended at [testResult == Failed && RetryOnce]. *)
Ltac failed_with_retry :=
  match goal with
  | Hb : _ && _ = true |- _ =>
      apply andb_true_iff in Hb; destruct Hb as [Ht Hr];
      apply TestResult_eqb_eq in Ht; subst;
      split; [exact Hr|]; eexists; eexists; eassumption
  end.

Lemma RunStage_returns (rc rc' : TestRunContext)
      (chk chk' : check.FTWCheck) (tc : schema.Test) (stage : schema.Stage)
      (err : option error) :
  RunStage rc chk tc stage = Returns (err, rc', chk') ->
  stageRuns (trace rc') = stageRuns (trace rc) + 1 /\
  (err = Some errBadTestInput ->
   checkTestSanity
     (test_ApplyInputOverrides (Config rc) (schema.Input stage)) = true) /\
  (err = Some errRetryOnce ->
   boolOf (test.RetryOnce (schema.Output stage)) = true /\
   exists response responseErr,
     checkResult chk' response responseErr (logFileLines (world rc'))
     = Returns Failed).
Proof.
  intros H. unfold RunStage, bindO in H. cbv zeta in H.
  stage_cases.
  all: repeat match goal with
              | Hm : markAndFlush _ _ _ = _ |- _ =>
                  apply markAndFlush_stageRuns in Hm
              | Hh : hardError _ _ _ = Some _ |- _ =>
                  apply hardError_inv in Hh; destruct Hh as [? ->]
              end.
  all: split; [count_stage_runs|].
  all: split; intros Herr;
    try (exfalso; unfold errBadTestInput, errRetryOnce in Herr;
         simpl in Herr; discriminate Herr).
  - cbn [Config emit setWorld] in *. assumption.
  - failed_with_retry.
  - failed_with_retry.
  - failed_with_retry.
  - failed_with_retry.
Qed.

Lemma overriddenTestResult_forced (c : check.FTWCheck) (tc : schema.Test) :
  overrideMatches c tc = true ->
  overriddenTestResult c tc <> Failed /\
  (overriddenTestResult c tc = Ignored \/
   overriddenTestResult c tc = ForceFail \/
   overriddenTestResult c tc = ForcePass).
Proof.
  unfold overrideMatches, overriddenTestResult.
  destruct (check.ForcedIgnore c (schema.IdString tc));
    destruct (check.ForcedFail c (schema.IdString tc));
    destruct (check.ForcedPass c (schema.IdString tc));
    cbn; intros H; try discriminate H; split; try discriminate; auto.
Qed.

(** C3, amended.  For every stage whose input passes the sanity check
    and whose test identifier matches an ignore, force-fail or force-pass
    rule, the stage ends without error right after the sanity check: the
    forced verdict (Ignored before ForceFail before ForcePass) goes to
    the statistics, and the run makes no marking and no call to the
    Connection layer, whatever the expectations of the stage are. *)
Theorem RunStage_forced_verdict_after_sanity_check
        (rc : TestRunContext) (chk : check.FTWCheck)
        (tc : schema.Test) (stage : schema.Stage) :
  checkTestSanity
    (test_ApplyInputOverrides (Config rc) (schema.Input stage)) = false ->
  overrideMatches chk tc = true ->
  exists rc',
    RunStage rc chk tc stage = Returns (None, rc', chk) /\
    (overriddenTestResult chk tc = Ignored \/
     overriddenTestResult chk tc = ForceFail \/
     overriddenTestResult chk tc = ForcePass) /\
    (check.ForcedIgnore chk (schema.IdString tc) = true ->
     overriddenTestResult chk tc = Ignored) /\
    (check.ForcedIgnore chk (schema.IdString tc) = false ->
     check.ForcedFail chk (schema.IdString tc) = true ->
     overriddenTestResult chk tc = ForceFail) /\
    (check.ForcedIgnore chk (schema.IdString tc) = false ->
     check.ForcedFail chk (schema.IdString tc) = false ->
     overriddenTestResult chk tc = ForcePass) /\
    Stats rc' =
      Stats rc ++ [StatResult (overriddenTestResult chk tc)
                              (schema.IdString tc)] /\
    world rc' = snd (uuid_NewString (world rc)) /\
    exists evs,
      appended rc rc' evs /\
      forallb (fun e => negb (isConnectionEvent e)
                        && negb (isMarkingEvent e)) evs = true.
Proof.
  intros Hsane Hover.
  destruct (overriddenTestResult_forced chk tc Hover) as [Hne Hforced].
  unfold RunStage. destruct (uuid_NewString (world rc)) as [id w] eqn:Hid.
  cbv zeta. cbn [Config emit setWorld]. rewrite Hsane.
  destruct (TestResult_eqb (overriddenTestResult chk tc) Failed) eqn:Heq;
    [apply TestResult_eqb_eq in Heq; contradiction|].
  cbn [negb]. eexists. split; [reflexivity|].
  split; [exact Hforced|].
  split; [|split; [|split; [|split; [|split]]]].
  - unfold overriddenTestResult. now intros ->.
  - unfold overriddenTestResult. now intros -> ->.
  - unfold overriddenTestResult, overrideMatches in *. intros Hi Hf.
    rewrite Hi, Hf in *. cbn in Hover. now rewrite Hover.
  - unfold displayResult.
    destruct (overriddenTestResult chk tc);
      try destruct (negb _); reflexivity.
  - unfold displayResult.
    destruct (overriddenTestResult chk tc);
      try destruct (negb _); reflexivity.
  - unfold appended, displayResult.
    destruct (overriddenTestResult chk tc);
      try destruct (negb _); cbn [trace emit addResultToStats addStat setWorld];
      try rewrite <- app_assoc;
      (eexists; split; [reflexivity | reflexivity]) ||
      (exists [EvNewStageID id]; split; reflexivity).
Qed.

(** A stage that declares retry-once and is not overridden never ends
    a run with a recorded Failed verdict: it asks for the retry. *)
Lemma RunStage_retry_declared_not_final_Failed
      (rc rc' : TestRunContext) (chk chk' : check.FTWCheck)
      (tc : schema.Test) (stage : schema.Stage) :
  boolOf (test.RetryOnce (schema.Output stage)) = true ->
  overrideMatches chk tc = false ->
  RunStage rc chk tc stage = Returns (None, rc', chk') ->
  Result rc' <> Failed.
Proof.
  intros Hretry Hover H.
  assert (Hfailed : overriddenTestResult chk tc = Failed).
  { unfold overrideMatches, overriddenTestResult in *.
    destruct (check.ForcedIgnore chk (schema.IdString tc));
      destruct (check.ForcedFail chk (schema.IdString tc));
      destruct (check.ForcedPass chk (schema.IdString tc));
      try discriminate Hover; reflexivity. }
  unfold RunStage, bindO in H. cbv zeta in H.
  rewrite Hfailed, Hretry in H. cbn [TestResult_eqb negb] in H.
  stage_cases.
  all: unfold displayResult;
    cbn [Result addStageResultToStats addStat setResult emit];
    match goal with
    | Hb : TestResult_eqb ?t Failed && true = false |- _ =>
        rewrite andb_true_r in Hb; destruct t;
        try discriminate Hb;
        try destruct (negb _); cbn [Result emit setResult]; discriminate
    end.
Qed.


(** C8.  On the input of a stage, with the overrides of the configuration
    applied, the sanity check answers true exactly when more than one of
    inline data, encoded request and raw request is supplied.  In that
    case the stage ends with the bad-test-input error and has only drawn
    its stage ID; with at most one source the stage never returns that
    error. *)
Theorem RunStage_rejects_ambiguous_input
        (rc : TestRunContext) (chk : check.FTWCheck)
        (tc : schema.Test) (stage : schema.Stage) :
  (checkTestSanity
     (test_ApplyInputOverrides (Config rc) (schema.Input stage)) = true
   <-> 1 < suppliedSources
             (test_ApplyInputOverrides (Config rc) (schema.Input stage))) /\
  (1 < suppliedSources
         (test_ApplyInputOverrides (Config rc) (schema.Input stage)) ->
   exists rc' stageID,
     RunStage rc chk tc stage = Returns (Some errBadTestInput, rc', chk) /\
     appended rc rc' [EvNewStageID stageID] /\
     Stats rc' = Stats rc /\ Result rc' = Result rc) /\
  (suppliedSources
     (test_ApplyInputOverrides (Config rc) (schema.Input stage)) <= 1 ->
   forall err rc' chk',
     RunStage rc chk tc stage = Returns (err, rc', chk') ->
     err <> Some errBadTestInput).
Proof.
  split; [apply checkTestSanity_iff|]. split.
  - intros Hmany. apply checkTestSanity_iff in Hmany.
    unfold RunStage. destruct (uuid_NewString (world rc)) as [id w].
    cbv zeta. cbn [Config emit setWorld]. rewrite Hmany.
    eexists. exists id. split; [reflexivity|].
    repeat split.
  - intros Hfew err rc' chk' Hrun Herr.
    apply RunStage_returns in Hrun. destruct Hrun as (_ & Hbad & _).
    apply Hbad, checkTestSanity_iff in Herr. lia.
Qed.

(** C9.  A test case whose identifier matches the include pattern is
    not skipped, whether or not an exclude pattern is set and matches. *)
Theorem needToSkipTest_inclusion_wins
        (include : Regexp) (exclude : option Regexp) (tc : schema.Test) :
  Regexp_Match include (schema.IdString tc) = true ->
  needToSkipTest (Some include) exclude tc = false.
Proof.
  intros Hin. unfold needToSkipTest. now rewrite Hin.
Qed.

(** The skip decision in full. *)
Lemma needToSkipTest_spec
      (include exclude : option Regexp) (tc : schema.Test) :
  needToSkipTest include exclude tc =
  match include with
  | Some re => negb (Regexp_Match re (schema.IdString tc))
  | None =>
      match exclude with
      | Some re => Regexp_Match re (schema.IdString tc)
      | None => false
      end
  end.
Proof.
  unfold needToSkipTest.
  destruct include as [inc|], exclude as [exc|];
    try destruct (Regexp_Match inc (schema.IdString tc));
    try destruct (Regexp_Match exc (schema.IdString tc)); reflexivity.
Qed.

End WithExternal.

(** C3, as stated, fails: the identifier of this test matches an ignore
    rule, but the stage supplies both inline data and an encoded request;
    the sanity check comes first, the stage ends with the bad-test-input
    error and no forced verdict is recorded. *)
Lemma RunStage_sanity_check_precedes_override :
  overrideMatches (Demo.checkWith Demo.ignoreCfg)
                  (Demo.test920100 [Demo.ambiguousStage]) = true /\
  exists rc',
    RunStage (Demo.contextWith Demo.ignoreCfg Demo.freshLog)
             (Demo.checkWith Demo.ignoreCfg)
             (Demo.test920100 [Demo.ambiguousStage]) Demo.ambiguousStage
    = Returns (Some errBadTestInput, rc', Demo.checkWith Demo.ignoreCfg) /\
    Stats rc' = [].
Proof.
  split; [reflexivity|]. eexists. split; reflexivity.
Qed.

(** The amended C3 on a well-formed stage of an ignored test. *)
Lemma RunStage_forced_verdict_after_sanity_check_witness :
  checkTestSanity
    (@test_ApplyInputOverrides Demo.ext Demo.ignoreCfg
                              (schema.Input Demo.plainStage)) = false /\
  overrideMatches (Demo.checkWith Demo.ignoreCfg)
                  (Demo.test920100 [Demo.plainStage]) = true /\
  exists rc',
    RunStage (Demo.contextWith Demo.ignoreCfg Demo.freshLog)
             (Demo.checkWith Demo.ignoreCfg)
             (Demo.test920100 [Demo.plainStage]) Demo.plainStage
    = Returns (None, rc', Demo.checkWith Demo.ignoreCfg) /\
    Stats rc' = [StatResult Ignored "920100-1"].
Proof.
  split; [reflexivity|]. split; [reflexivity|].
  destruct (RunStage_forced_verdict_after_sanity_check
              (E := Demo.ext)
              (Demo.contextWith Demo.ignoreCfg Demo.freshLog)
              (Demo.checkWith Demo.ignoreCfg)
              (Demo.test920100 [Demo.plainStage]) Demo.plainStage
              eq_refl eq_refl)
    as (rc' & Hrun & _ & _ & _ & _ & Hstats & _).
  exists rc'. split; [exact Hrun | exact Hstats].
Defined.


(** C9 on an identifier that matches the include and the exclude pattern. *)
Lemma needToSkipTest_inclusion_wins_witness :
  @Regexp_Match Demo.ext "920100"
               (schema.IdString (Demo.test920100 [])) = true /\
  @Regexp_Match Demo.ext "920"
               (schema.IdString (Demo.test920100 [])) = true /\
  needToSkipTest (E := Demo.ext) (Some "920100") (Some "920")
                 (Demo.test920100 []) = false.
Proof.
  split; [reflexivity|]. split; [reflexivity|].
  apply (needToSkipTest_inclusion_wins (E := Demo.ext)). reflexivity.
Defined.

(** C8 on a stage that supplies inline data and an encoded request. *)
Lemma RunStage_rejects_ambiguous_input_witness :
  1 < suppliedSources
        (@test_ApplyInputOverrides Demo.ext Demo.plainCfg
                                  (schema.Input Demo.ambiguousStage)) /\
  exists rc' stageID,
    RunStage (Demo.contextWith Demo.plainCfg Demo.freshLog)
             (Demo.checkWith Demo.plainCfg)
             (Demo.test920100 [Demo.ambiguousStage]) Demo.ambiguousStage
    = Returns (Some errBadTestInput, rc', Demo.checkWith Demo.plainCfg) /\
    appended (Demo.contextWith Demo.plainCfg Demo.freshLog) rc'
             [EvNewStageID stageID] /\
    Stats rc' = [] /\ Result rc' = Success.
Proof.
  assert (H : 1 < suppliedSources
                    (@test_ApplyInputOverrides Demo.ext Demo.plainCfg
                       (schema.Input Demo.ambiguousStage)))
    by (cbn; lia).
  split; [exact H|].
  exact (proj1 (proj2 (RunStage_rejects_ambiguous_input
                         (E := Demo.ext)
                         (Demo.contextWith Demo.plainCfg Demo.freshLog)
                         (Demo.checkWith Demo.plainCfg)
                         (Demo.test920100 [Demo.ambiguousStage])
                         Demo.ambiguousStage)) H).
Defined.

End RunnerFacts.

(* ------------------------------------------------------------------ *)
(** ** The scenarios of the specification, run on the concrete environment *)

Module Scenarios.
Import runner.

(** Scenario A: a plain GET that expects 200 and gets 200. *)
Example scenario_A :
  Demo.runOn Demo.plainCfg (Demo.worldWith (Some ["older line"]) 200 false)
        (Demo.stageExpecting 200 "" None)
  = Some (None, Success, [StatStage "920100-1"]).
Proof. reflexivity. Qed.

(** Scenario B: status 403 and a line of the window that matches. *)
Example scenario_B_found :
  Demo.runOn Demo.plainCfg (Demo.worldWith (Some []) 403 false)
        (Demo.stageExpecting 403 "Host: localhost" None)
  = Some (None, Success, [StatStage "920100-1"]).
Proof. reflexivity. Qed.

Example scenario_B_missing :
  Demo.runOn Demo.plainCfg (Demo.worldWith (Some []) 403 false)
        (Demo.stageExpecting 403 "id 911100" None)
  = Some (None, Failed, [StatStage "920100-1"]).
Proof. reflexivity. Qed.

(** Scenario C: a force-fail rule matches the identifier. *)
Example scenario_C :
  let c := Demo.cfgWith config.DefaultRunMode
             {| config.Ignore := []; config.ForcePass := [];
                config.ForceFail := [("920100", "known gap")] |} in
  match RunStage (Demo.contextWith c Demo.freshLog) (Demo.checkWith c)
                 (Demo.test920100 []) (Demo.stageExpecting 200 "" None) with
  | Returns (err, rc, _) =>
      err = None /\ Stats rc = [StatResult ForceFail "920100-1"] /\
      filter isConnectionEvent (trace rc) = []
  | Fatal _ => False
  end.
Proof. cbv zeta. repeat split. Qed.

(** Scenario D: an expected error that occurs, and one that does not. *)
Example scenario_D_error :
  Demo.runOn Demo.plainCfg (Demo.worldWith (Some []) 200 true)
        (Demo.stageExpecting 0 "" (Some true))
  = Some (None, Success, [StatStage "920100-1"]).
Proof. reflexivity. Qed.

Example scenario_D_no_error :
  Demo.runOn Demo.plainCfg (Demo.worldWith (Some []) 200 false)
        (Demo.stageExpecting 0 "" (Some true))
  = Some (None, Failed, [StatStage "920100-1"]).
Proof. reflexivity. Qed.

(** Scenario E: the log cannot be read, so no marker is found. *)
Example scenario_E :
  Demo.runOn Demo.plainCfg (Demo.worldWith None 200 false)
        (Demo.stageExpecting 200 "" None)
  = Some (Some ("failed to find start marker: can't find log marker. "
                  ++ "Am I reading the correct log? Log file: error.log")%string,
          Success, []).
Proof. reflexivity. Qed.

End Scenarios.

(* ------------------------------------------------------------------ *)
(** ** More about the marker scanner *)

Module ScannerMore.
Import waflog.
Import Criteria.

(** Without any line equal to the end marker, the window is the whole
    file, newest line first; the start marker plays no role. *)
Theorem getMarkedLines_without_end_marker
        (ll : FTWLogLines) (lines : list string) :
  Forall (fun l => bytes.ToLower l <> EndMarker ll) lines ->
  getMarkedLines ll (Some lines) = rev lines.
Proof.
  intros Hno. unfold getMarkedLines, backscan.
  rewrite <- (app_nil_r (rev lines)) at 1.
  rewrite WaflogFacts.markedLoop_before_end by (now apply Forall_rev).
  reflexivity.
Qed.

(** The start marker of this log is older than nothing that matters: no
    line is the end marker, so even the start-marker line is in the
    window. *)
Lemma getMarkedLines_without_end_marker_witness :
  getMarkedLines {| StartMarker := "x-crs-test: start";
                    EndMarker := "x-crs-test: end" |}
                 (Some ["older"; "X-CRS-Test: start"; "evidence"])
  = ["evidence"; "X-CRS-Test: start"; "older"].
Proof.
  apply (getMarkedLines_without_end_marker
           {| StartMarker := "x-crs-test: start";
              EndMarker := "x-crs-test: end" |}
           ["older"; "X-CRS-Test: start"; "evidence"]).
  repeat constructor; discriminate.
Defined.

(** When no line before the end marker equals the start marker, the
    window reaches back to the beginning of the file. *)
Theorem getMarkedLines_without_start_marker
        (ll : FTWLogLines) (pre post : list string) (e : string) :
  bytes.ToLower e = EndMarker ll ->
  Forall (fun l => bytes.ToLower l <> EndMarker ll) post ->
  Forall (fun l => bytes.ToLower l <> StartMarker ll) pre ->
  getMarkedLines ll (Some (pre ++ e :: post)) = rev post ++ rev pre.
Proof.
  intros He Hpost Hpre. unfold getMarkedLines, backscan.
  rewrite rev_app_distr. cbn [rev]. rewrite <- app_assoc. cbn [app].
  rewrite WaflogFacts.markedLoop_before_end by (now apply Forall_rev).
  cbn [markedLoop negb andb app].
  apply BytesFacts.Equal_eq in He. rewrite He.
  apply WaflogFacts.markedLoop_no_start. now apply Forall_rev.
Qed.

Lemma getMarkedLines_without_start_marker_witness :
  getMarkedLines {| StartMarker := ""; EndMarker := "x-crs-test: end" |}
                 (Some (["first"; "second"] ++ "X-CRS-Test: END" :: []))
  = rev [] ++ rev ["first"; "second"].
Proof.
  apply (getMarkedLines_without_start_marker
           {| StartMarker := ""; EndMarker := "x-crs-test: end" |}
           ["first"; "second"] [] "X-CRS-Test: END").
  - reflexivity.
  - constructor.
  - repeat constructor; discriminate.
Defined.

Lemma markedLoop_within (ll : FTWLogLines) (scan : list string) :
  forall endFound found,
    incl (markedLoop ll scan endFound found) (found ++ scan) /\
    length (markedLoop ll scan endFound found) <= length found + length scan.
Proof.
  induction scan as [|l scan IH]; intros endFound found; cbn [markedLoop].
  - rewrite app_nil_r. split; [apply incl_refl | lia].
  - destruct (negb endFound && bytes.Equal (bytes.ToLower l) (EndMarker ll)).
    + destruct (IH true found) as [Hin Hlen]. split.
      * intros x Hx. apply Hin in Hx. apply in_app_or in Hx.
        apply in_or_app. destruct Hx; [now left | right; now right].
      * cbn [length]. lia.
    + destruct (endFound && bytes.Equal (bytes.ToLower l) (StartMarker ll)).
      * split; [apply incl_appl, incl_refl | lia].
      * destruct (IH endFound (found ++ [l])) as [Hin Hlen]. split.
        -- intros x Hx. apply Hin in Hx. now rewrite <- app_assoc in Hx.
        -- rewrite length_app in Hlen. cbn [length] in *. lia.
Qed.

Lemma markedLoop_drops_end_marker (ll : FTWLogLines) (scan : list string) :
  forall found,
    Exists (fun l => bytes.ToLower l = EndMarker ll) scan ->
    length (markedLoop ll scan false found) < length found + length scan.
Proof.
  induction scan as [|l scan IH]; intros found Hex; [inversion Hex|].
  cbn [markedLoop negb andb length].
  destruct (bytes.Equal (bytes.ToLower l) (EndMarker ll)) eqn:Heq.
  - pose proof (proj2 (markedLoop_within ll scan true found)). lia.
  - apply BytesFacts.Equal_neq in Heq.
    inversion Hex as [? ? Hl | ? ? Hrest]; subst; [contradiction|].
    specialize (IH (found ++ [l]) Hrest).
    rewrite length_app in IH. cbn [length] in IH. lia.
Qed.

(** The window holds lines of the file only, never more of them than the
    file has, and fewer when some line is the end marker. *)
Theorem getMarkedLines_within_file (ll : FTWLogLines) (lines : list string) :
  incl (getMarkedLines ll (Some lines)) lines /\
  length (getMarkedLines ll (Some lines)) <= length lines /\
  (Exists (fun l => bytes.ToLower l = EndMarker ll) lines ->
   length (getMarkedLines ll (Some lines)) < length lines).
Proof.
  unfold getMarkedLines, backscan.
  destruct (markedLoop_within ll (rev lines) false []) as [Hin Hlen].
  cbn [app length] in *. rewrite length_rev in Hlen. repeat split.
  - intros x Hx. apply Hin in Hx. now apply in_rev.
  - lia.
  - intros Hex.
    pose proof (markedLoop_drops_end_marker ll (rev lines) []) as Hd.
    cbn [length] in Hd. rewrite length_rev in Hd. apply Hd.
    apply Exists_exists in Hex. destruct Hex as (x & Hx & Heq).
    apply Exists_exists. exists x. split; [now apply in_rev in Hx | exact Heq].
Qed.

Lemma getMarkedLines_within_file_witness :
  length (getMarkedLines {| StartMarker := ""; EndMarker := "end" |}
                         (Some ["a"; "END"; "b"])) < 3.
Proof.
  apply (proj2 (proj2 (getMarkedLines_within_file
                         {| StartMarker := ""; EndMarker := "end" |}
                         ["a"; "END"; "b"]))).
  right. left. reflexivity.
Defined.

(** With a negative limit the search gives up at once, whatever the file
    holds: it signals the abort and reads no line. *)
Theorem CheckLogForMarker_negative_limit
        (header stageID : string) (lines : list string) (readLimit : Z) :
  (readLimit < 0)%Z ->
  CheckLogForMarker header (Some lines) stageID readLimit = (None, true) /\
  linesInspected header lines readLimit = 0%Z.
Proof.
  intros Hneg. unfold CheckLogForMarker, linesInspected.
  rewrite WaflogFacts.markerLoop_over_limit by lia. now split.
Qed.

Lemma CheckLogForMarker_negative_limit_witness :
  CheckLogForMarker "X-CRS-Test" (Some ["X-CRS-Test: 1b4e28ba"]) "1b4e28ba" (-1)
  = (None, true).
Proof.
  apply (CheckLogForMarker_negative_limit
           "X-CRS-Test" "1b4e28ba" ["X-CRS-Test: 1b4e28ba"] (-1)).
  lia.
Defined.

Lemma Forall_firstn_of {A : Type} (P : A -> Prop) (n : nat) (l : list A) :
  Forall P l -> Forall P (firstn n l).
Proof.
  intros H. revert n. induction H as [|x l Hx _ IH]; intros [|n]; cbn [firstn];
    constructor; auto.
Qed.

(** A scan either has no header line or splits at its first one. *)
Lemma first_header_line (h : string) (scan : list string) :
  Forall (fun l => bytes.Contains (bytes.ToLower l) h = false) scan \/
  exists pre line post,
    scan = pre ++ line :: post /\
    Forall (fun l => bytes.Contains (bytes.ToLower l) h = false) pre /\
    bytes.Contains (bytes.ToLower line) h = true.
Proof.
  induction scan as [|l scan IH]; [left; constructor|].
  destruct (bytes.Contains (bytes.ToLower l) h) eqn:Hl.
  - right. exists [], l, scan. repeat split; auto.
  - destruct IH as [Hno | (pre & line & post & -> & Hpre & Hline)].
    + left. now constructor.
    + right. exists (l :: pre), line, post. repeat split; auto.
Qed.

(** The abort signal is given exactly when the limit is negative, or the
    file has more than [readLimit] lines and none of its newest
    [readLimit + 1] lines contains the header name. *)
Theorem CheckLogForMarker_abort_iff
        (header stageID : string) (lines : list string) (readLimit : Z) :
  snd (CheckLogForMarker header (Some lines) stageID readLimit) = true <->
  (readLimit < 0)%Z \/
  ((readLimit < Z.of_nat (length lines))%Z /\
   Forall (fun l => hasHeader header l = false)
          (firstn (Z.to_nat (readLimit + 1)) (backscan lines))).
Proof.
  destruct (Z.lt_ge_cases readLimit 0) as [Hneg|Hpos].
  - rewrite (proj1 (CheckLogForMarker_negative_limit
                      header stageID lines readLimit Hneg)).
    cbn [snd]. split; [intros _; now left | reflexivity].
  - unfold CheckLogForMarker, hasHeader.
    assert (Hlen : length (backscan lines) = length lines)
      by apply length_rev.
    destruct (first_header_line (bytes.ToLower header) (backscan lines))
      as [Hno | (pre & line & post & Hscan & Hpre & Hline)].
    + rewrite WaflogFacts.markerLoop_no_header by (auto; lia).
      rewrite Hlen. cbn [Z.add].
      destruct (Z.leb_spec (Z.of_nat (length lines)) readLimit) as [Hle|Hgt];
        cbn [snd].
      * split; [discriminate | intros [H|[H _]]; lia].
      * split; [|reflexivity]. intros _. right. split; [lia|].
        now apply Forall_firstn_of.
    + rewrite Hscan, WaflogFacts.markerLoop_first_header by (auto; lia).
      cbn [Z.add].
      assert (Hlen' : length lines = length pre + S (length post)).
      { rewrite <- Hlen, Hscan, length_app. reflexivity. }
      destruct (Z.leb_spec (Z.of_nat (length pre)) readLimit) as [Hle|Hgt].
      * destruct (bytes.Contains (bytes.ToLower line) stageID); cbn [snd];
          (split; [discriminate|]);
          (intros [H|[_ H]]; [lia|]);
          (rewrite firstn_app in H; apply Forall_app in H;
           destruct H as [_ H];
           replace (Z.to_nat (readLimit + 1) - length pre)
             with (S (Z.to_nat (readLimit + 1) - length pre - 1)) in H by lia;
           cbn [firstn] in H; inversion H; congruence).
      * cbn [snd]. split; [|reflexivity]. intros _. right. split; [lia|].
        rewrite firstn_app.
        replace (Z.to_nat (readLimit + 1) - length pre) with 0 by lia.
        cbn [firstn]. rewrite app_nil_r. now apply Forall_firstn_of.
Qed.

Lemma CheckLogForMarker_abort_iff_witness :
  snd (CheckLogForMarker "X-CRS-Test"
         (Some ["X-CRS-Test: 1b4e28ba"; "a"; "b"; "c"]) "1b4e28ba" 2) = true.
Proof.
  apply (proj2 (CheckLogForMarker_abort_iff
                  "X-CRS-Test" "1b4e28ba"
                  ["X-CRS-Test: 1b4e28ba"; "a"; "b"; "c"] 2)).
  right. split; [cbn; lia|]. repeat constructor.
Defined.

(** With an empty header name every line counts as a header line: for a
    non-negative limit the newest line alone decides. *)
Theorem CheckLogForMarker_empty_header_name
        (stageID : string) (older : list string) (newest : string)
        (readLimit : Z) :
  (0 <= readLimit)%Z ->
  CheckLogForMarker "" (Some (older ++ [newest])) stageID readLimit =
  if bytes.Contains (bytes.ToLower newest) stageID
  then (Some (bytes.ToLower newest), false)
  else (None, false).
Proof.
  intros Hpos. unfold CheckLogForMarker, backscan.
  rewrite rev_app_distr. cbn [rev app bytes.ToLower].
  rewrite WaflogFacts.markerLoop_cons, BytesFacts.Contains_empty.
  destruct (Z.gtb_spec 0 readLimit); [lia | reflexivity].
Qed.

Lemma CheckLogForMarker_empty_header_name_witness :
  CheckLogForMarker "" (Some (["X-CRS-Test: 1b4e28ba"] ++ ["AH00128"]))
                    "1b4e28ba" 10
  = (None, false).
Proof.
  apply (CheckLogForMarker_empty_header_name
           "1b4e28ba" ["X-CRS-Test: 1b4e28ba"] "AH00128" 10).
  lia.
Defined.

(** The marker that the search returns, once set as end marker, is what
    the window scan recognises: the window is then every line newer than
    the marker line followed by the older ones up to the start marker, or
    up to the beginning of the file when no older line is the start
    marker. *)
Theorem found_marker_bounds_window
        `{E : External} (c : check.FTWCheck) (header stageID : string)
        (lines : list string) (readLimit : Z) (m : string) :
  CheckLogForMarker header (Some lines) stageID readLimit = (Some m, false) ->
  exists older line newer,
    lines = older ++ line :: newer /\
    m = bytes.ToLower line /\
    EndMarker (check.log (check.SetEndMarker c m)) = m /\
    Forall (fun l => hasHeader header l = false) newer /\
    (Forall (fun l => bytes.ToLower l
                      <> StartMarker (check.log (check.SetEndMarker c m)))
            older ->
     getMarkedLines (check.log (check.SetEndMarker c m)) (Some lines)
     = rev newer ++ rev older).
Proof.
  unfold CheckLogForMarker.
  destruct (markerLoop (bytes.ToLower header) readLimit (backscan lines) 0)
    as [n|n|found n] eqn:Hloop; try discriminate.
  destruct (bytes.Contains found stageID) eqn:Hid; [|discriminate].
  intros Heq. injection Heq as <-.
  apply WaflogFacts.markerLoop_HeaderFound_inv in Hloop.
  destruct Hloop as (pre & line & post & Hscan & Hpre & Hline & -> & _ & _).
  assert (Hlines : lines = rev post ++ line :: rev pre).
  { unfold backscan in Hscan. apply (f_equal (@rev string)) in Hscan.
    rewrite rev_involutive, rev_app_distr in Hscan. cbn [rev] in Hscan.
    now rewrite <- app_assoc in Hscan. }
  exists (rev post), line, (rev pre).
  assert (Hend : EndMarker (check.log (check.SetEndMarker c (bytes.ToLower line)))
                 = bytes.ToLower line).
  { cbn. apply BytesFacts.ToLower_idem. }
  repeat split; auto.
  - now apply Forall_rev.
  - intros Hstart. rewrite Hlines.
    apply getMarkedLines_without_start_marker;
      [now rewrite Hend | | exact Hstart].
    rewrite Hend. apply Forall_rev.
    eapply Forall_impl; [|exact Hpre]. cbn beta.
    intros l Hl Heq. rewrite Heq, Hline in Hl. discriminate.
Qed.

Lemma found_marker_bounds_window_witness :
  exists older line newer,
    ["ModSecurity: Warning. [id 911100]"; "X-CRS-Test: 1B4E28BA"; "AH00128"]
    = older ++ line :: newer /\
    "x-crs-test: 1b4e28ba" = bytes.ToLower line.
Proof.
  destruct (found_marker_bounds_window (E := Demo.ext)
              (Demo.checkWith Demo.plainCfg) "X-CRS-Test" "1b4e28ba"
              ["ModSecurity: Warning. [id 911100]"; "X-CRS-Test: 1B4E28BA";
               "AH00128"] 10 "x-crs-test: 1b4e28ba" eq_refl)
    as (older & line & newer & Hl & Hm & _).
  exists older, line, newer. now split.
Defined.

Section WithExternal.
Context `{E : External}.

Lemma containsLoop_true_iff (p : string) (lines : list string) :
  containsLoop p lines = Returns true <->
  exists re line,
    regexp_Compile p = Some re /\ In line lines /\ Regexp_Match re line = true.
Proof.
  destruct (regexp_Compile p) as [re|] eqn:Hre.
  - rewrite (WaflogFacts.containsLoop_compiled p re lines Hre). split.
    + intros H. injection H as H. apply existsb_exists in H.
      destruct H as (line & Hin & Hm). now exists re, line.
    + intros (re' & line & Hre' & Hin & Hm). injection Hre' as <-.
      f_equal. apply existsb_exists. now exists line.
  - split.
    + destruct lines as [|l lines]; cbn [containsLoop]; [discriminate|].
      unfold regexp_Match. rewrite Hre. discriminate.
    + intros (re & _ & H & _). discriminate.
Qed.

(** [Contains] answers true exactly when the pattern compiles and matches
    some line of the window. *)
Theorem Contains_true_iff (ll : FTWLogLines) (file : option (list string))
        (p : string) :
  Contains ll file p = Returns true <->
  exists re line,
    regexp_Compile p = Some re /\
    In line (getMarkedLines ll file) /\
    Regexp_Match re line = true.
Proof. apply containsLoop_true_iff. Qed.

(** [Contains] ends the run exactly when the pattern does not compile and
    the window has a line to try it on. *)
Theorem Contains_fatal_iff (ll : FTWLogLines) (file : option (list string))
        (p : string) :
  (exists msg, Contains ll file p = Fatal msg) <->
  regexp_Compile p = None /\ getMarkedLines ll file <> [].
Proof.
  unfold Contains.
  destruct (regexp_Compile p) as [re|] eqn:Hre.
  - rewrite (WaflogFacts.containsLoop_compiled p re _ Hre). split.
    + intros [msg H]. discriminate.
    + intros [H _]. discriminate.
  - destruct (getMarkedLines ll file) as [|l lines]; cbn [containsLoop].
    + split; [intros [msg H]; discriminate | intros [_ H]; contradiction].
    + unfold regexp_Match. rewrite Hre. split.
      * intros _. split; [reflexivity | discriminate].
      * intros _. eexists. reflexivity.
Qed.

End WithExternal.

End ScannerMore.
(* ------------------------------------------------------------------ *)
(** ** More about the checker's override rules *)

Module CheckMore.
Import Criteria.

Section WithExternal.
Context `{E : External}.

Lemma anyMatches_Permutation (m m' : list (Regexp * string)) (id : string) :
  Permutation m m' -> check.anyMatches m id = check.anyMatches m' id.
Proof.
  unfold check.anyMatches.
  induction 1 as [|x l l' _ IH|x y l|l l' l'' _ IH1 _ IH2]; cbn [existsb].
  - reflexivity.
  - now rewrite IH.
  - now rewrite !orb_assoc, (orb_comm (Regexp_Match (fst y) id)).
  - now rewrite IH1.
Qed.

(** The three rule sets are Go maps, which are walked in no fixed order:
    the forced verdict of a test is the same for every order of the rules
    within each set. *)
Theorem overriddenTestResult_order_irrelevant
        (c c' : check.FTWCheck) (tc : schema.Test) :
  Permutation (config.Ignore (config.TestOverride (check.cfg c)))
              (config.Ignore (config.TestOverride (check.cfg c'))) ->
  Permutation (config.ForceFail (config.TestOverride (check.cfg c)))
              (config.ForceFail (config.TestOverride (check.cfg c'))) ->
  Permutation (config.ForcePass (config.TestOverride (check.cfg c)))
              (config.ForcePass (config.TestOverride (check.cfg c'))) ->
  runner.overriddenTestResult c tc = runner.overriddenTestResult c' tc.
Proof.
  intros Hi Hf Hp.
  unfold runner.overriddenTestResult, check.ForcedIgnore, check.ForcedFail,
    check.ForcedPass.
  now rewrite (anyMatches_Permutation _ _ _ Hi),
    (anyMatches_Permutation _ _ _ Hf), (anyMatches_Permutation _ _ _ Hp).
Qed.

Lemma anyMatches_false_iff (m : list (Regexp * string)) (id : string) :
  check.anyMatches m id = false <->
  forall re reason, In (re, reason) m -> Regexp_Match re id = false.
Proof.
  unfold check.anyMatches. split.
  - intros H re reason Hin.
    destruct (Regexp_Match re id) eqn:Hm; [|reflexivity].
    rewrite <- H. symmetry. apply existsb_exists.
    exists (re, reason). now split.
  - intros H. apply not_true_is_false. intros Hex.
    apply existsb_exists in Hex. destruct Hex as ([re reason] & Hin & Hm).
    cbn [fst] in Hm. now rewrite (H re reason Hin) in Hm.
Qed.

(** [overriddenTestResult] returns Failed, its sign for "not overridden",
    exactly when no pattern of the ignore, force-fail and force-pass rules
    matches the identifier of the test. *)
Theorem overriddenTestResult_Failed_iff (c : check.FTWCheck) (tc : schema.Test) :
  runner.overriddenTestResult c tc = Failed <->
  forall re reason,
    In (re, reason)
       (config.Ignore (config.TestOverride (check.cfg c))
        ++ config.ForceFail (config.TestOverride (check.cfg c))
        ++ config.ForcePass (config.TestOverride (check.cfg c))) ->
    Regexp_Match re (schema.IdString tc) = false.
Proof.
  unfold runner.overriddenTestResult, check.ForcedIgnore, check.ForcedFail,
    check.ForcedPass.
  pose proof (anyMatches_false_iff
                (config.Ignore (config.TestOverride (check.cfg c)))
                (schema.IdString tc)) as Hi.
  pose proof (anyMatches_false_iff
                (config.ForceFail (config.TestOverride (check.cfg c)))
                (schema.IdString tc)) as Hf.
  pose proof (anyMatches_false_iff
                (config.ForcePass (config.TestOverride (check.cfg c)))
                (schema.IdString tc)) as Hp.
  destruct (check.anyMatches (config.Ignore _) _);
    destruct (check.anyMatches (config.ForceFail _) _);
    destruct (check.anyMatches (config.ForcePass _) _);
    split; intros H; try discriminate H; try reflexivity.
  all: try (intros re reason Hin; apply in_app_or in Hin;
            destruct Hin as [Hin|Hin];
            [now apply (proj1 Hi eq_refl re reason)|];
            apply in_app_or in Hin; destruct Hin as [Hin|Hin];
            [now apply (proj1 Hf eq_refl re reason)
            |now apply (proj1 Hp eq_refl re reason)]).
  all: exfalso.
  all: try (assert (Hx : true = false);
            [ first
                [ apply Hi; intros re reason Hin; apply (H re reason);
                  apply in_or_app; now left
                | apply Hf; intros re reason Hin; apply (H re reason);
                  apply in_or_app; right; apply in_or_app; now left
                | apply Hp; intros re reason Hin; apply (H re reason);
                  apply in_or_app; right; apply in_or_app; now right ]
            | discriminate Hx ]).
Qed.

End WithExternal.

Lemma overriddenTestResult_order_irrelevant_witness :
  let rules := [("920100", "known false positive"); ("941", "not deployed")] in
  let cfgOf := fun ignore =>
    Demo.cfgWith config.DefaultRunMode
      {| config.Ignore := ignore; config.ForcePass := [];
         config.ForceFail := [] |} in
  runner.overriddenTestResult (E := Demo.ext)
    (Demo.checkWith (cfgOf rules)) (Demo.test920100 [])
  = runner.overriddenTestResult (E := Demo.ext)
      (Demo.checkWith (cfgOf (rev rules))) (Demo.test920100 []).
Proof.
  cbv zeta.
  apply (overriddenTestResult_order_irrelevant (E := Demo.ext)).
  - apply Permutation_rev.
  - apply Permutation_refl.
  - apply Permutation_refl.
Defined.

End CheckMore.

(* ------------------------------------------------------------------ *)
(** ** The earlier marker search and the environment keys *)

Module LegacyMore.
Import waflog0.

Lemma lastNonEmpty_skips (empties scan : list string) :
  Forall (fun l => l = "") empties ->
  lastNonEmpty (empties ++ scan) = lastNonEmpty scan.
Proof.
  induction 1 as [|l empties Hl _ IH]; cbn [app lastNonEmpty]; [reflexivity|].
  subst l. exact IH.
Qed.

(** Empty lines at the end of the file, such as the one that a final line
    break leaves, do not change what the earlier search finds. *)
Theorem CheckLogForMarker_ignores_trailing_empty_lines
        (header stageID : string) (lines trailing : list string) :
  Forall (fun l => l = "") trailing ->
  CheckLogForMarker header (Some (lines ++ trailing)) stageID =
  CheckLogForMarker header (Some lines) stageID.
Proof.
  intros Hempty. unfold CheckLogForMarker, waflog.backscan.
  rewrite rev_app_distr, lastNonEmpty_skips by (now apply Forall_rev).
  reflexivity.
Qed.

Lemma CheckLogForMarker_ignores_trailing_empty_lines_witness :
  CheckLogForMarker "X-CRS-Test" (Some (["X-CRS-Test: 1b4e28ba"] ++ [""; ""]))
                    "1b4e28ba"
  = CheckLogForMarker "X-CRS-Test" (Some ["X-CRS-Test: 1b4e28ba"]) "1b4e28ba".
Proof.
  apply (CheckLogForMarker_ignores_trailing_empty_lines
           "X-CRS-Test" "1b4e28ba" ["X-CRS-Test: 1b4e28ba"] [""; ""]).
  repeat constructor.
Defined.

(** The earlier search looks at the last non-empty line and at the line
    before it, and at nothing older. *)
Theorem CheckLogForMarker_looks_at_two_lines
        (header stageID : string) (older : list string) (before last : string) :
  last <> "" ->
  CheckLogForMarker header (Some (older ++ [before; last])) stageID =
  CheckLogForMarker header (Some [before; last]) stageID.
Proof.
  intros Hlast. unfold CheckLogForMarker, waflog.backscan.
  rewrite rev_app_distr. cbn [rev app lastNonEmpty].
  destruct last as [|c rest]; [contradiction|].
  cbn [String.length Nat.eqb]. reflexivity.
Qed.

Lemma CheckLogForMarker_looks_at_two_lines_witness :
  CheckLogForMarker "X-CRS-Test"
    (Some (["X-CRS-Test: 1b4e28ba"] ++ ["AH00128"; "AH00129"])) "1b4e28ba"
  = None.
Proof.
  rewrite (CheckLogForMarker_looks_at_two_lines
             "X-CRS-Test" "1b4e28ba" ["X-CRS-Test: 1b4e28ba"]
             "AH00128" "AH00129"); [reflexivity | discriminate].
Defined.

End LegacyMore.

Module ConfigMore.
Import configEnv.

Lemma lowerByte_not_upper (c : ascii) :
  bytes.lowerByte (if Ascii.eqb (bytes.lowerByte c) "_" then "."%char
                   else bytes.lowerByte c)
  = (if Ascii.eqb (bytes.lowerByte c) "_" then "."%char
     else bytes.lowerByte c) /\
  Ascii.eqb (if Ascii.eqb (bytes.lowerByte c) "_" then "."%char
             else bytes.lowerByte c) "_" = false /\
  Ascii.eqb "F" (if Ascii.eqb (bytes.lowerByte c) "_" then "."%char
                 else bytes.lowerByte c) = false.
Proof.
  destruct c as [[] [] [] [] [] [] [] []]; repeat split; reflexivity.
Qed.

(** A key produced by the mapping has no underscore and no uppercase
    ASCII letter. *)
Theorem envKey_normal (s : string) (c : ascii) :
  In c (list_ascii_of_string (envKey s)) ->
  c <> "_"%char /\ bytes.lowerByte c = c.
Proof.
  unfold envKey. generalize (TrimPrefix s "FTW_"). intros t.
  induction t as [|x t IH]; cbn [bytes.ToLower ReplaceAll list_ascii_of_string].
  - intros [].
  - intros [<- | Hin]; [|now apply IH].
    destruct (lowerByte_not_upper x) as (Hlow & Hus & _). split.
    + intros Heq. rewrite Heq in Hus. discriminate Hus.
    + exact Hlow.
Qed.

Lemma envKey_normal_witness :
  "."%char <> "_"%char /\ bytes.lowerByte "." = "."%char.
Proof.
  apply (envKey_normal "FTW_LOGTYPE_NAME" "."%char).
  cbn. tauto.
Defined.

(** Mapping a key twice gives what mapping it once gives. *)
Theorem envKey_idempotent (s : string) : envKey (envKey s) = envKey s.
Proof.
  unfold envKey. generalize (TrimPrefix s "FTW_"). intros t.
  assert (Htrim : TrimPrefix (ReplaceAll (bytes.ToLower t) "_" ".") "FTW_"
                  = ReplaceAll (bytes.ToLower t) "_" ".").
  { unfold TrimPrefix. destruct t as [|x t]; [reflexivity|].
    cbn [bytes.ToLower ReplaceAll bytes.HasPrefix].
    destruct (lowerByte_not_upper x) as (_ & _ & HF).
    now rewrite HF. }
  rewrite Htrim. clear Htrim.
  induction t as [|x t IH]; cbn [bytes.ToLower ReplaceAll]; [reflexivity|].
  destruct (lowerByte_not_upper x) as (Hlow & Hus & _).
  now rewrite Hlow, Hus, IH.
Qed.

End ConfigMore.
(* ------------------------------------------------------------------ *)
(** ** More about the stage executor *)

Module RunnerMore.
Import Criteria.
Import Counting.
Import runner.

Lemma countEv_app (p : Event -> bool) (a b : list Event) :
  countEv p (a ++ b) = countEv p a + countEv p b.
Proof. unfold countEv. now rewrite filter_app, length_app. Qed.

Section WithExternal.
Context `{E : External}.

Lemma sameSetup_refl (rc : TestRunContext) : sameSetup rc rc.
Proof. repeat split. Qed.

Lemma sameSetup_trans (a b c : TestRunContext) :
  sameSetup a b -> sameSetup b c -> sameSetup a c.
Proof.
  unfold sameSetup. intros (?&?&?&?&?) (?&?&?&?&?).
  repeat split; congruence.
Qed.

Lemma sameSetup_displayResult (rc : TestRunContext) (r : TestResult) :
  sameSetup rc (displayResult rc r).
Proof.
  unfold displayResult.
  destruct r; try destruct (negb (ShowOnlyFailed rc)); repeat split.
Qed.

Lemma countEv_emit (p : Event -> bool) (rc : TestRunContext) (e : Event) :
  countEv p (trace (emit rc e)) =
  countEv p (trace rc) + (if p e then 1 else 0).
Proof.
  cbn [emit trace]. rewrite countEv_app. unfold countEv at 2.
  cbn [filter]. now destruct (p e).
Qed.

Lemma countEv_displayResult (p : Event -> bool) (rc : TestRunContext)
      (r : TestResult) :
  countEv p (trace rc) <= countEv p (trace (displayResult rc r)) /\
  countEv p (trace (displayResult rc r))
  <= countEv p (trace rc) + (if p (EvDisplayResult r) then 1 else 0).
Proof.
  unfold displayResult.
  destruct r; try destruct (negb (ShowOnlyFailed rc));
    try rewrite countEv_emit; lia.
Qed.

Lemma countEv_displayResult_quiet (rc : TestRunContext) (r : TestResult) :
  ShowOnlyFailed rc = true ->
  countEv isQuietDisplay (trace (displayResult rc r))
  = countEv isQuietDisplay (trace rc).
Proof.
  intros Hq. unfold displayResult. rewrite Hq. cbn [negb].
  destruct r; try reflexivity; rewrite countEv_emit; cbn; lia.
Qed.

(** What the probe loop does to the context: it keeps the setup, the
    statistics and the verdict, and adds at most one connection and one
    request per round. *)
Ltac count_events :=
  repeat first
    [ rewrite countEv_emit
    | progress cbn [setWorld setResult addStat addResultToStats
                    addStageResultToStats trace] ].

(** What the probe loop does to the context: it keeps the setup, the
    statistics and the verdict, and adds at most one connection and one
    request per round. *)
Lemma markLoop_effect (p : Event -> bool) (i : nat) :
  forall rc dest req stageID res rc',
    markLoop i rc dest req stageID = (res, rc') ->
    sameSetup rc rc' /\ Stats rc' = Stats rc /\ Result rc' = Result rc /\
    countEv p (trace rc) <= countEv p (trace rc') /\
    countEv p (trace rc')
    <= countEv p (trace rc)
       + i * ((if p (EvNewOrReusedConnection dest) then 1 else 0)
              + (if p (EvDo req) then 1 else 0)).
Proof.
  induction i as [|i IH]; intros rc dest req stageID res rc'; cbn [markLoop].
  - intros H. injection H as _ <-. repeat split; lia.
  - destruct (Client_NewOrReusedConnection dest (world rc)) as [err w].
    destruct err as [e|].
    + intros H. injection H as _ <-.
      repeat split; count_events; lia.
    + cbn [world emit setWorld].
      destruct (Client_Do req w) as [[resp err] w'].
      destruct err as [e|].
      * intros H. injection H as _ <-.
        repeat split; count_events; lia.
      * match goal with
        | |- context [fst ?x] => destruct (fst x) as [m|]
        end.
        -- intros H. injection H as _ <-.
           repeat split; count_events; lia.
        -- intros H. apply IH in H.
           destruct H as (Hs & Hst & Hr & Hlo & Hhi).
           revert Hlo Hhi. count_events. intros Hlo Hhi.
           split; [|split; [|split; [|split]]].
           ++ destruct Hs as (?&?&?&?&?). repeat split; assumption.
           ++ exact Hst.
           ++ exact Hr.
           ++ lia.
           ++ lia.
Qed.

Lemma markAndFlush_effect (p : Event -> bool) (rc rc' : TestRunContext)
      (dest : ftwhttp.Destination) (stageID : string)
      (res : string * option error) :
  markAndFlush rc dest stageID = (res, rc') ->
  sameSetup rc rc' /\ Stats rc' = Stats rc /\ Result rc' = Result rc /\
  countEv p (trace rc) <= countEv p (trace rc') /\
  (forall n : nat,
      (forall d, p (EvNewOrReusedConnection d) = true -> 1 <= n) ->
      (forall r, p (EvDo r) = true -> 1 <= n) ->
      (forall d r, p (EvNewOrReusedConnection d) = true ->
                   p (EvDo r) = true -> 2 <= n) ->
      countEv p (trace rc')
      <= countEv p (trace rc)
         + (if p (EvMarkAndFlush stageID) then 1 else 0)
         + n * Z.to_nat (config.MaxMarkerRetries (Config rc))).
Proof.
  unfold markAndFlush. intros H.
  apply (markLoop_effect p) in H.
  destruct H as (Hs & Hst & Hr & Hlo & Hhi).
  rewrite countEv_emit in Hlo, Hhi. cbn [Config emit] in Hhi.
  split; [|split; [|split; [|split]]]; try assumption.
  - lia.
  - intros n H1 H2 H3.
    match type of Hhi with
    | context [(if p ?a then 1 else 0) + (if p ?b then 1 else 0)] =>
        pose proof (H1 _ : p a = true -> 1 <= n) as G1;
        pose proof (H2 _ : p b = true -> 1 <= n) as G2;
        pose proof (H3 _ _ : p a = true -> p b = true -> 2 <= n) as G3;
        destruct (p a), (p b)
    end;
      try specialize (G1 eq_refl); try specialize (G2 eq_refl);
      try specialize (G3 eq_refl eq_refl); nia.
Qed.

(** A marker that [markAndFlush] returns without error is the lowercase
    form of a line of the log as the call leaves it, and contains the
    lowercase header name and the stage ID; with an error the marker is
    empty. *)
Lemma markLoop_result (i : nat) :
  forall rc dest req stageID m err rc',
    markLoop i rc dest req stageID = ((m, err), rc') ->
    match err with
    | Some _ => m = ""
    | None =>
        exists lines line,
          logFileLines (world rc') = Some lines /\ In line lines /\
          m = bytes.ToLower line /\
          hasHeader (config.LogMarkerHeaderName (Config rc)) line = true /\
          bytes.Contains m stageID = true
    end.
Proof.
  induction i as [|i IH]; intros rc dest req stageID m err rc'; cbn [markLoop].
  - intros H. now injection H as <- <- _.
  - destruct (Client_NewOrReusedConnection dest (world rc)) as [e w].
    destruct e as [e|].
    + intros H. now injection H as <- <- _.
    + cbn [world emit setWorld].
      destruct (Client_Do req w) as [[resp e] w'].
      destruct e as [e|].
      * intros H. now injection H as <- <- _.
      * cbn [Config emit setWorld].
        destruct (waflog.CheckLogForMarker
                    (config.LogMarkerHeaderName (Config rc))
                    (logFileLines w') stageID
                    (config.MaxMarkerLogLines (Config rc)))
          as [found aborted] eqn:Hsearch.
        cbn [fst]. destruct found as [found|].
        -- intros H. injection H as <- <- <-. cbn [world emit setWorld].
           unfold waflog.CheckLogForMarker in Hsearch.
           destruct (logFileLines w') as [lines|]; [|discriminate].
           destruct (waflog.markerLoop _ _ _ _) as [n|n|l n] eqn:Hloop;
             try discriminate.
           destruct (bytes.Contains l stageID) eqn:Hid; [|discriminate].
           injection Hsearch as <- _.
           apply WaflogFacts.markerLoop_HeaderFound_inv in Hloop.
           destruct Hloop as (pre & line & post & Hscan & _ & Hline & -> & _).
           exists lines, line. repeat split; auto.
           apply in_rev. unfold waflog.backscan in Hscan. rewrite Hscan.
           apply in_or_app. right. now left.
        -- intros H. apply IH in H. exact H.
Qed.

(** A marker that [markAndFlush] returns is the lowercase form of a line
    that is in the log file when it returns, and that line carries the
    marker header and the stage ID; with an error the marker is empty. *)
Theorem markAndFlush_marker_is_log_line
        (rc rc' : TestRunContext) (dest : ftwhttp.Destination)
        (stageID m : string) (err : option error) :
  markAndFlush rc dest stageID = ((m, err), rc') ->
  match err with
  | Some _ => m = ""
  | None =>
      exists lines line,
        logFileLines (world rc') = Some lines /\ In line lines /\
        m = bytes.ToLower line /\
        hasHeader (config.LogMarkerHeaderName (Config rc)) line = true /\
        bytes.Contains m stageID = true
  end.
Proof.
  unfold markAndFlush. intros H. apply markLoop_result in H. exact H.
Qed.

(** [markAndFlush] sends at most [MaxMarkerRetries] probes, over reused
    connections only; with no retry allowed it reports the missing marker
    without touching the network. *)
Theorem markAndFlush_probe_budget
        (rc rc' : TestRunContext) (dest : ftwhttp.Destination)
        (stageID : string) (res : string * option error) :
  markAndFlush rc dest stageID = (res, rc') ->
  countEv isProbeOrRequest (trace rc')
  <= countEv isProbeOrRequest (trace rc)
     + Z.to_nat (config.MaxMarkerRetries (Config rc)) /\
  countEv isReusedConnection (trace rc')
  <= countEv isReusedConnection (trace rc)
     + Z.to_nat (config.MaxMarkerRetries (Config rc)) /\
  countEv isFreshConnection (trace rc') = countEv isFreshConnection (trace rc) /\
  ((config.MaxMarkerRetries (Config rc) <= 0)%Z ->
   world rc' = world rc /\ snd res <> None /\
   countEv isConnectionEvent (trace rc')
   = countEv isConnectionEvent (trace rc)).
Proof.
  intros H.
  pose proof (markAndFlush_effect isProbeOrRequest _ _ _ _ _ H)
    as (_ & _ & _ & _ & Hdo).
  pose proof (markAndFlush_effect isReusedConnection _ _ _ _ _ H)
    as (_ & _ & _ & _ & Hre).
  pose proof (markAndFlush_effect isFreshConnection _ _ _ _ _ H)
    as (_ & _ & _ & Hlo & Hfr).
  specialize (Hdo 1 ltac:(discriminate) ltac:(intros; lia) ltac:(discriminate)).
  specialize (Hre 1 ltac:(intros; lia) ltac:(discriminate) ltac:(discriminate)).
  specialize (Hfr 0 ltac:(discriminate) ltac:(discriminate) ltac:(discriminate)).
  cbn [isProbeOrRequest isReusedConnection isFreshConnection] in *.
  split; [lia|]. split; [lia|]. split; [lia|].
  intros Hzero. unfold markAndFlush in H.
  replace (Z.to_nat (config.MaxMarkerRetries (Config rc))) with 0 in H by lia.
  cbn [markLoop] in H. injection H as <- <-.
  cbn [world emit snd]. rewrite countEv_emit. cbn [isConnectionEvent].
  repeat split; [discriminate | lia].
Qed.

(** Case analysis of the hypotheses that unfold [RunStage]. *)
Ltac stage_cases :=
  repeat match goal with
         | H : Returns _ = Fatal _ |- _ => discriminate H
         | H : Fatal _ = Returns _ |- _ => discriminate H
         | H : Some _ = None |- _ => discriminate H
         | H : None = Some _ |- _ => discriminate H
         | H : Returns _ = Returns _ |- _ => injection H as H; subst
         | H : (_, _) = (_, _) |- _ =>
             first [discriminate H | injection H as ? ?; subst]
         | H : context [match ?x with _ => _ end] |- _ => destruct x eqn:?
         end.

Lemma weighs_emit (p : Event -> bool) (wS wM wR wC wD wV : nat)
      (rc : TestRunContext) (e : Event) :
  weighs p wS wM wR wC wD wV ->
  countEv p (trace rc) <= countEv p (trace (emit rc e)) /\
  countEv p (trace (emit rc e))
  <= countEv p (trace rc)
     + match e with
       | EvNewStageID _ => wS
       | EvMarkAndFlush _ => wM
       | EvNewOrReusedConnection _ => wR
       | EvNewConnection _ => wC
       | EvDo _ => wD
       | EvDisplayResult _ => wV
       | EvPrint _ => 1
       end.
Proof.
  intros Hw. rewrite countEv_emit. specialize (Hw e).
  destruct (p e); [specialize (Hw eq_refl)|]; destruct e; lia.
Qed.

Lemma weighs_markAndFlush (p : Event -> bool) (wS wM wR wC wD wV : nat)
      (rc rc' : TestRunContext) (dest : ftwhttp.Destination)
      (stageID : string) (res : string * option error) :
  weighs p wS wM wR wC wD wV ->
  markAndFlush rc dest stageID = (res, rc') ->
  sameSetup rc rc' /\ Stats rc' = Stats rc /\ Result rc' = Result rc /\
  countEv p (trace rc) <= countEv p (trace rc') /\
  countEv p (trace rc')
  <= countEv p (trace rc) + wM
     + (wR + wD) * Z.to_nat (config.MaxMarkerRetries (Config rc)).
Proof.
  intros Hw H. unfold markAndFlush in H.
  apply (markLoop_effect p) in H.
  destruct H as (Hs & Hst & Hr & Hlo & Hhi).
  rewrite countEv_emit in Hlo, Hhi. cbn [Config emit] in Hhi.
  split; [exact Hs|]. split; [exact Hst|]. split; [exact Hr|].
  split; [lia|].
  match type of Hhi with
  | context [(if p ?a then 1 else 0) + (if p ?b then 1 else 0)] =>
      pose proof (Hw a) as G1; pose proof (Hw b) as G2;
      destruct (p a), (p b)
  end;
    pose proof (Hw (EvMarkAndFlush stageID)) as G3;
    destruct (p (EvMarkAndFlush stageID));
    try specialize (G1 eq_refl); try specialize (G2 eq_refl);
    try specialize (G3 eq_refl); cbn beta iota in *; nia.
Qed.

(** [RunStage] only reads the setup of the context (configuration,
    include and exclude patterns, fail-fast and show-only-failed flags) and
    the configuration of the check. *)
Theorem RunStage_keeps_setup
        (rc rc' : TestRunContext) (chk chk' : check.FTWCheck)
        (tc : schema.Test) (stage : schema.Stage) (err : option error) :
  RunStage rc chk tc stage = Returns (err, rc', chk') ->
  sameSetup rc rc' /\ check.cfg chk' = check.cfg chk.
Proof.
  intros H. unfold RunStage, bindO in H. cbv zeta in H.
  stage_cases.
  all: repeat match goal with
              | Hm : markAndFlush _ _ _ = _ |- _ =>
                  apply (markLoop_effect (fun _ => false)) in Hm;
                  destruct Hm as ((?&?&?&?&?) & _)
              end.
  all: unfold sameSetup, displayResult;
    repeat match goal with
           | |- context [negb ?b] => destruct (negb b)
           | |- context [match ?r with Success => _ | _ => _ end] =>
               destruct r
           end;
    cbn [Config Include Exclude FailFast ShowOnlyFailed emit setWorld
         setResult addStat addResultToStats addStageResultToStats
         check.cfg check.SetStartMarker check.SetEndMarker
         check.SetExpectTestOutput check.setLog check.setExpected] in *;
    repeat split; congruence.
Qed.

(** How much a run of a stage adds to the count of [p]. *)
Lemma RunStage_effect (p : Event -> bool) (wS wM wR wC wD wV : nat)
      (rc rc' : TestRunContext) (chk chk' : check.FTWCheck)
      (tc : schema.Test) (stage : schema.Stage) (err : option error) :
  weighs p wS wM wR wC wD wV ->
  RunStage rc chk tc stage = Returns (err, rc', chk') ->
  countEv p (trace rc) <= countEv p (trace rc') /\
  countEv p (trace rc')
  <= countEv p (trace rc) + wS + wC + wD + wV
     + 2 * (wM + (wR + wD) * Z.to_nat (config.MaxMarkerRetries (Config rc))).
Proof.
  intros Hw H. unfold RunStage, bindO in H. cbv zeta in H.
  stage_cases.
  all: repeat match goal with
              | Hm : markAndFlush _ _ _ = _ |- _ =>
                  apply (weighs_markAndFlush p wS wM wR wC wD wV _ _ _ _ _ Hw)
                    in Hm;
                  destruct Hm as ((?&_) & _ & _ & ? & ?)
              end.
  all: cbn [Config emit setWorld] in *.
  all: repeat match goal with
              | HC : Config ?t = Config _ |- _ => rewrite HC in *; clear HC
              end.
  all: repeat match goal with
              | |- context [displayResult ?x ?r] =>
                  let D := fresh "D" in
                  pose proof (countEv_displayResult p x r) as D;
                  generalize dependent (displayResult x r); intros
              end.
  all: repeat match goal with
              | D : _ /\ _ |- _ => destruct D
              end.
  all: repeat match goal with
              | D : context [trace (emit _ _)] |- _ =>
                  revert D; count_events; intros D
              | D : context [trace (setWorld _ _)] |- _ =>
                  revert D; count_events; intros D
              | D : context [trace (setResult _ _)] |- _ =>
                  revert D; count_events; intros D
              | D : context [trace (addStat _ _)] |- _ =>
                  revert D; count_events; intros D
              | D : context [trace (addResultToStats _ _ _)] |- _ =>
                  revert D; count_events; intros D
              end.
  all: count_events.
  all: repeat match goal with
              | |- context [if ?q ?e then 1 else 0] =>
                  let G := fresh "G" in
                  pose proof (Hw e) as G; destruct (q e);
                  [specialize (G eq_refl)|clear G]
              | D : context [if ?q ?e then 1 else 0] |- _ =>
                  let G := fresh "G" in
                  pose proof (Hw e) as G; destruct (q e);
                  [specialize (G eq_refl)|clear G]
              end.
  all: cbn beta iota in *.
  all: split; nia.
Qed.

Lemma weighs_marking : weighs isMarkingEvent 0 1 0 0 0 0.
Proof. intros [] H; cbn in *; try discriminate H; auto. Qed.

Lemma weighs_fresh : weighs isFreshConnection 0 0 0 1 0 0.
Proof. intros [] H; cbn in *; try discriminate H; auto. Qed.

Lemma weighs_reused : weighs isReusedConnection 0 0 1 0 0 0.
Proof. intros [] H; cbn in *; try discriminate H; auto. Qed.

Lemma weighs_requests : weighs isProbeOrRequest 0 0 0 0 1 0.
Proof. intros [] H; cbn in *; try discriminate H; auto. Qed.

Lemma weighs_banner : weighs isFileBanner 0 0 0 0 0 0.
Proof. intros [] H; cbn in *; try discriminate H; auto. Qed.

(** One run of a stage marks the log at most twice, opens at most one
    fresh connection, and sends at most one request besides the probes,
    of which each marking sends at most [MaxMarkerRetries]. *)
Theorem RunStage_network_budget
        (rc rc' : TestRunContext) (chk chk' : check.FTWCheck)
        (tc : schema.Test) (stage : schema.Stage) (err : option error) :
  RunStage rc chk tc stage = Returns (err, rc', chk') ->
  countEv isMarkingEvent (trace rc') <= countEv isMarkingEvent (trace rc) + 2 /\
  countEv isFreshConnection (trace rc')
  <= countEv isFreshConnection (trace rc) + 1 /\
  countEv isReusedConnection (trace rc')
  <= countEv isReusedConnection (trace rc)
     + 2 * Z.to_nat (config.MaxMarkerRetries (Config rc)) /\
  countEv isProbeOrRequest (trace rc')
  <= countEv isProbeOrRequest (trace rc) + 1
     + 2 * Z.to_nat (config.MaxMarkerRetries (Config rc)).
Proof.
  intros H.
  pose proof (RunStage_effect _ _ _ _ _ _ _ _ _ _ _ _ _ _ weighs_marking H).
  pose proof (RunStage_effect _ _ _ _ _ _ _ _ _ _ _ _ _ _ weighs_fresh H).
  pose proof (RunStage_effect _ _ _ _ _ _ _ _ _ _ _ _ _ _ weighs_reused H).
  pose proof (RunStage_effect _ _ _ _ _ _ _ _ _ _ _ _ _ _ weighs_requests H).
  lia.
Qed.

(** How much a run of a stage in cloud mode adds to the count of [p]. *)
Lemma RunStage_effect_cloud (p : Event -> bool) (wS wM wR wC wD wV : nat)
      (rc rc' : TestRunContext) (chk chk' : check.FTWCheck)
      (tc : schema.Test) (stage : schema.Stage) (err : option error) :
  weighs p wS wM wR wC wD wV ->
  check.CloudMode chk = true ->
  RunStage rc chk tc stage = Returns (err, rc', chk') ->
  (countEv p (trace rc) <= countEv p (trace rc') /\
   countEv p (trace rc') <= countEv p (trace rc) + wS + wC + wD + wV) /\
  check.log chk' = check.log chk.
Proof.
  intros Hw Hcloud H. unfold RunStage, bindO in H. cbv zeta in H.
  stage_cases.
  all: unfold notRunningInCloudMode in *.
  all: try match goal with
           | Hn : negb (check.CloudMode ?c) = true,
             Hc : check.CloudMode ?c = true |- _ =>
               rewrite Hc in Hn; discriminate Hn
           end.
  all: split; [|reflexivity].
  all: repeat match goal with
              | |- context [displayResult ?x ?r] =>
                  let D := fresh "D" in
                  pose proof (countEv_displayResult p x r) as D;
                  generalize dependent (displayResult x r); intros
              end.
  all: repeat match goal with
              | D : _ /\ _ |- _ => destruct D
              end.
  all: repeat match goal with
              | D : context [trace (emit _ _)] |- _ =>
                  revert D; count_events; intros D
              | D : context [trace (setWorld _ _)] |- _ =>
                  revert D; count_events; intros D
              | D : context [trace (setResult _ _)] |- _ =>
                  revert D; count_events; intros D
              | D : context [trace (addStat _ _)] |- _ =>
                  revert D; count_events; intros D
              | D : context [trace (addResultToStats _ _ _)] |- _ =>
                  revert D; count_events; intros D
              end.
  all: count_events.
  all: repeat match goal with
              | |- context [if ?q ?e then 1 else 0] =>
                  let G := fresh "G" in
                  pose proof (Hw e) as G; destruct (q e);
                  [specialize (G eq_refl)|clear G]
              | D : context [if ?q ?e then 1 else 0] |- _ =>
                  let G := fresh "G" in
                  pose proof (Hw e) as G; destruct (q e);
                  [specialize (G eq_refl)|clear G]
              end.
  all: cbn beta iota in *.
  all: split; nia.
Qed.

(** In cloud mode a stage never marks the log and never asks for a reused
    connection; it sends at most its own request and leaves the markers of
    the check as they were. *)
Theorem RunStage_cloud_mode_never_marks
        (rc rc' : TestRunContext) (chk chk' : check.FTWCheck)
        (tc : schema.Test) (stage : schema.Stage) (err : option error) :
  check.CloudMode chk = true ->
  RunStage rc chk tc stage = Returns (err, rc', chk') ->
  countEv isMarkingEvent (trace rc') = countEv isMarkingEvent (trace rc) /\
  countEv isReusedConnection (trace rc')
  = countEv isReusedConnection (trace rc) /\
  countEv isProbeOrRequest (trace rc')
  <= countEv isProbeOrRequest (trace rc) + 1 /\
  check.log chk' = check.log chk.
Proof.
  intros Hcloud H.
  pose proof (RunStage_effect_cloud _ _ _ _ _ _ _ _ _ _ _ _ _ _
                weighs_marking Hcloud H) as [? Hlog].
  pose proof (RunStage_effect_cloud _ _ _ _ _ _ _ _ _ _ _ _ _ _
                weighs_reused Hcloud H) as [? _].
  pose proof (RunStage_effect_cloud _ _ _ _ _ _ _ _ _ _ _ _ _ _
                weighs_requests Hcloud H) as [? _].
  split; [lia|]. split; [lia|]. split; [lia | exact Hlog].
Qed.

(** A stage that expects an error is never ended by a marker, connection
    or send failure: its run returns no error, the bad-input error or the
    retry request. *)
Theorem RunStage_expected_error_tolerates_failures
        (rc rc' : TestRunContext) (chk chk' : check.FTWCheck)
        (tc : schema.Test) (stage : schema.Stage) (err : option error) :
  boolOf (test.ExpectError (schema.Output stage)) = true ->
  RunStage rc chk tc stage = Returns (err, rc', chk') ->
  err = None \/ err = Some errBadTestInput \/ err = Some errRetryOnce.
Proof.
  intros Hexp H. unfold RunStage, bindO in H. cbv zeta in H.
  rewrite Hexp in H. unfold hardError in H. cbn [negb] in H.
  stage_cases; auto.
Qed.

(** When only failures are to be shown, a run of a stage displays no
    result other than Failed and ForceFail. *)
Theorem RunStage_shows_only_failures
        (rc rc' : TestRunContext) (chk chk' : check.FTWCheck)
        (tc : schema.Test) (stage : schema.Stage) (err : option error) :
  ShowOnlyFailed rc = true ->
  RunStage rc chk tc stage = Returns (err, rc', chk') ->
  countEv isQuietDisplay (trace rc') = countEv isQuietDisplay (trace rc).
Proof.
  intros Hq H. unfold RunStage, bindO in H. cbv zeta in H.
  stage_cases.
  all: repeat match goal with
              | Hm : markAndFlush _ _ _ = _ |- _ =>
                  apply (markLoop_effect isQuietDisplay) in Hm;
                  destruct Hm as ((_&_&_&_&?) & _ & _ & ? & ?)
              end.
  all: cbn [ShowOnlyFailed emit setWorld] in *.
  all: count_events.
  all: repeat match goal with
              | |- context [displayResult ?x ?r] =>
                  rewrite (countEv_displayResult_quiet x r)
                    by (cbn [ShowOnlyFailed emit setWorld setResult addStat
                             addResultToStats]; congruence)
              end.
  all: repeat match goal with
              | D : context [trace (emit _ _)] |- _ =>
                  revert D; count_events; intros D
              end.
  all: count_events; cbn [isQuietDisplay] in *; lia.
Qed.


End WithExternal.

Lemma markAndFlush_marker_is_log_line_witness :
  exists lines line,
    logFileLines (world (snd (markAndFlush
                                (Demo.contextWith Demo.plainCfg Demo.freshLog)
                                {| ftwhttp.DestAddr := "localhost";
                                   ftwhttp.Port := 80;
                                   ftwhttp.Protocol := "http" |}
                                "1b4e28ba")))
    = Some lines /\
    In line lines /\ "x-crs-test: 1b4e28ba" = bytes.ToLower line.
Proof.
  pose proof (markAndFlush_marker_is_log_line (E := Demo.ext)
                (Demo.contextWith Demo.plainCfg Demo.freshLog)
                (snd (markAndFlush
                        (Demo.contextWith Demo.plainCfg Demo.freshLog)
                        {| ftwhttp.DestAddr := "localhost";
                           ftwhttp.Port := 80;
                           ftwhttp.Protocol := "http" |}
                        "1b4e28ba"))
                {| ftwhttp.DestAddr := "localhost"; ftwhttp.Port := 80;
                   ftwhttp.Protocol := "http" |}
                "1b4e28ba" "x-crs-test: 1b4e28ba" None eq_refl) as H.
  destruct H as (lines & line & Hl & Hin & Hm & _).
  exists lines, line. repeat split; assumption.
Defined.

Lemma markAndFlush_probe_budget_witness :
  countEv isProbeOrRequest
          (trace (snd (markAndFlush
                         (Demo.contextWith Demo.plainCfg Demo.freshLog)
                         {| ftwhttp.DestAddr := "localhost";
                            ftwhttp.Port := 80;
                            ftwhttp.Protocol := "http" |}
                         "1b4e28ba")))
  <= 0 + 2.
Proof.
  exact (proj1 (markAndFlush_probe_budget (E := Demo.ext)
                  (Demo.contextWith Demo.plainCfg Demo.freshLog)
                  (snd (markAndFlush
                          (Demo.contextWith Demo.plainCfg Demo.freshLog)
                          {| ftwhttp.DestAddr := "localhost";
                             ftwhttp.Port := 80;
                             ftwhttp.Protocol := "http" |}
                          "1b4e28ba"))
                  {| ftwhttp.DestAddr := "localhost"; ftwhttp.Port := 80;
                     ftwhttp.Protocol := "http" |}
                  "1b4e28ba" (fst (markAndFlush
                          (Demo.contextWith Demo.plainCfg Demo.freshLog)
                          {| ftwhttp.DestAddr := "localhost";
                             ftwhttp.Port := 80;
                             ftwhttp.Protocol := "http" |}
                          "1b4e28ba")) eq_refl)).
Defined.

End RunnerMore.
(* ------------------------------------------------------------------ *)
(** ** The loops over stages, test cases and test files *)

Module TestRunMore.
Import Criteria.
Import Counting.
Import runner.

Section WithExternal.
Context `{E : External}.

Lemma sameSetup_emit (rc : TestRunContext) (e : Event) :
  sameSetup rc (emit rc e).
Proof. repeat split. Qed.

Lemma sameSetup_addResultToStats (rc : TestRunContext) (r : TestResult)
      (tc : schema.Test) :
  sameSetup rc (addResultToStats rc r tc).
Proof. repeat split. Qed.

(** What the loop over the stages of a test case keeps and adds. *)
Lemma runStages_effect (tc : schema.Test) (stages : list schema.Stage) :
  forall rc err rc',
    runStages rc tc stages = Returns (err, rc') ->
    sameSetup rc rc' /\
    stageRuns (trace rc') <= stageRuns (trace rc) + 2 * length stages /\
    (err = None -> stageRuns (trace rc) + length stages
                   <= stageRuns (trace rc')) /\
    countEv isFileBanner (trace rc') = countEv isFileBanner (trace rc).
Proof.
  induction stages as [|stage rest IH]; intros rc err rc' H;
    cbn [runStages] in H.
  - injection H as <- <-. cbn [length].
    repeat split; try apply RunnerMore.sameSetup_refl; lia.
  - destruct (check.NewCheck (Config rc) (world rc)) as [e|chk].
    { injection H as <- <-. cbn [length].
      repeat split; try apply RunnerMore.sameSetup_refl;
        try discriminate; lia. }
    unfold bindO in H.
    destruct (RunStage rc chk tc stage) as [[[err1 rc1] chk1]|msg] eqn:H1;
      [|discriminate H].
    pose proof (RunnerFacts.RunStage_returns _ _ _ _ _ _ _ H1) as (R1 & _).
    pose proof (RunnerMore.RunStage_keeps_setup _ _ _ _ _ _ _ H1) as (S1 & _).
    pose proof (RunnerMore.RunStage_effect _ _ _ _ _ _ _ _ _ _ _ _ _ _
                  RunnerMore.weighs_banner H1) as B1.
    assert (Htail : forall rcx e' rcy,
               sameSetup rc rcx ->
               stageRuns (trace rcx) <= stageRuns (trace rc) + 2 ->
               stageRuns (trace rc) + 1 <= stageRuns (trace rcx) ->
               countEv isFileBanner (trace rcx)
               = countEv isFileBanner (trace rc) ->
               runStages rcx tc rest = Returns (e', rcy) ->
               sameSetup rc rcy /\
               stageRuns (trace rcy)
               <= stageRuns (trace rc) + 2 * length (stage :: rest) /\
               (e' = None -> stageRuns (trace rc) + length (stage :: rest)
                             <= stageRuns (trace rcy)) /\
               countEv isFileBanner (trace rcy)
               = countEv isFileBanner (trace rc)).
    { intros rcx e' rcy Sx Rhi Rlo Bx Hx. apply IH in Hx.
      destruct Hx as (Sy & Ry & Ry' & By). cbn [length].
      split; [now apply (RunnerMore.sameSetup_trans _ rcx)|].
      split; [lia|]. split; [intros He; specialize (Ry' He); lia | lia]. }
    destruct err1 as [e1|].
    + destruct (String.eqb e1 "retry-once").
      * destruct (RunStage rc1 chk1 tc stage) as [[[err2 rc2] chk2]|msg] eqn:H2;
          [|discriminate H].
        pose proof (RunnerFacts.RunStage_returns _ _ _ _ _ _ _ H2) as (R2 & _).
        pose proof (RunnerMore.RunStage_keeps_setup _ _ _ _ _ _ _ H2)
          as (S2 & _).
        pose proof (RunnerMore.RunStage_effect _ _ _ _ _ _ _ _ _ _ _ _ _ _
                      RunnerMore.weighs_banner H2) as B2.
        destruct err2 as [e2|].
        -- injection H as <- <-. cbn [length].
           split; [now apply (RunnerMore.sameSetup_trans _ rc1)|].
           split; [lia|]. split; [discriminate | lia].
        -- apply (Htail rc2); auto; try lia.
           now apply (RunnerMore.sameSetup_trans _ rc1).
      * injection H as <- <-. cbn [length].
        split; [exact S1|]. split; [lia|]. split; [discriminate | lia].
    + apply (Htail rc1); auto; lia.
Qed.


Lemma isFileBanner_running (msg : string) :
  isFileBanner (EvPrint (String (ascii_of_nat 9) msg)) = false.
Proof. reflexivity. Qed.

(** What the loop over the test cases keeps and prints. *)
Lemma runTestCases_effect (name : string) (tests : list schema.Test) :
  forall rc changed err rc',
    runTestCases rc name changed tests = Returns (err, rc') ->
    sameSetup rc rc' /\
    countEv isFileBanner (trace rc')
    <= countEv isFileBanner (trace rc) + (if changed then 1 else 0).
Proof.
  induction tests as [|t rest IH]; intros rc changed err rc' H;
    cbn [runTestCases] in H.
  - injection H as <- <-. split; [apply RunnerMore.sameSetup_refl | lia].
  - destruct (needToSkipTest (Include rc) (Exclude rc) t).
    { apply IH in H. destruct H as [S B]. split; [exact S | exact B]. }
    remember (test_ApplyPlatformOverrides (Config rc) t) as t'.
    remember (if changed && negb (ShowOnlyFailed rc)
              then (emit rc (EvPrint ("=> executing tests in file " ++ name)%string),
                    false)
              else (rc, changed)) as first eqn:Hfirst.
    destruct first as [rc1 changed1].
    assert (F : sameSetup rc rc1 /\
                countEv isFileBanner (trace rc1) + (if changed1 then 1 else 0)
                <= countEv isFileBanner (trace rc) + (if changed then 1 else 0)).
    { destruct (changed && negb (ShowOnlyFailed rc)) eqn:Hc;
        injection Hfirst as -> ->.
      - apply andb_true_iff in Hc. destruct Hc as [-> _].
        split; [apply sameSetup_emit|]. rewrite RunnerMore.countEv_emit.
        destruct (isFileBanner _); lia.
      - split; [apply RunnerMore.sameSetup_refl | lia]. }
    destruct F as [S1 B1].
    remember (if negb (ShowOnlyFailed rc1)
              then emit rc1 (EvPrint (String (ascii_of_nat 9) "running "
                                        ++ schema.IdString t' ++ ": ")%string)
              else rc1) as rc2 eqn:Hrc2.
    assert (G : sameSetup rc1 rc2 /\
                countEv isFileBanner (trace rc2)
                = countEv isFileBanner (trace rc1)).
    { destruct (negb (ShowOnlyFailed rc1)); subst rc2.
      - split; [apply sameSetup_emit|]. rewrite RunnerMore.countEv_emit.
        cbn [append]. rewrite isFileBanner_running. lia.
      - split; [apply RunnerMore.sameSetup_refl | reflexivity]. }
    destruct G as [S2 B2].
    unfold bindO in H.
    destruct (runStages rc2 t' (schema.Stages t')) as [[err3 rc3]|msg] eqn:H3;
      [|discriminate H].
    apply runStages_effect in H3. destruct H3 as (S3 & _ & _ & B3).
    assert (S03 : sameSetup rc rc3).
    { apply (RunnerMore.sameSetup_trans _ rc1); [exact S1|].
      now apply (RunnerMore.sameSetup_trans _ rc2). }
    destruct err3 as [e3|].
    + injection H as <- <-. split; [exact S03|]. destruct changed1; lia.
    + destruct (FailFast (addResultToStats rc3 (Result rc3) t')
                && (Stats_TotalFailed
                      (Stats (addResultToStats rc3 (Result rc3) t')) >? 0)%Z).
      * injection H as <- <-.
        split; [apply (RunnerMore.sameSetup_trans _ rc3); auto;
                apply sameSetup_addResultToStats|].
        cbn [trace addResultToStats addStat]. destruct changed1; lia.
      * apply IH in H. destruct H as [S4 B4].
        split.
        -- apply (RunnerMore.sameSetup_trans _ rc3); [exact S03|].
           eapply RunnerMore.sameSetup_trans;
             [apply sameSetup_addResultToStats | exact S4].
        -- cbn [trace addResultToStats addStat] in B4. lia.
Qed.

(** [RunTest] prints the line that names the test file at most once. *)
Theorem RunTest_names_file_at_most_once
        (rc rc' : TestRunContext) (ftwTest : FTWTest) (err : option error) :
  RunTest rc ftwTest = Returns (err, rc') ->
  countEv isFileBanner (trace rc') <= countEv isFileBanner (trace rc) + 1.
Proof.
  unfold RunTest. intros H. apply runTestCases_effect in H. tauto.
Qed.

Lemma runTestCases_all_skipped (name : string) (tests : list schema.Test) :
  forall rc changed,
    Forall (fun t => needToSkipTest (Include rc) (Exclude rc) t = true) tests ->
    exists rc',
      runTestCases rc name changed tests = Returns (None, rc') /\
      trace rc' = trace rc /\ world rc' = world rc /\
      Result rc' = Result rc /\
      Stats rc' = Stats rc
                  ++ map (fun t => StatResult Skipped (schema.IdString t)) tests.
Proof.
  induction tests as [|t rest IH]; intros rc changed Hskip.
  - exists rc. cbn [runTestCases map]. rewrite app_nil_r. repeat split.
  - inversion Hskip as [|? ? Ht Hrest]; subst.
    cbn [runTestCases]. rewrite Ht.
    destruct (IH (addResultToStats rc Skipped t) changed Hrest)
      as (rc' & Hrun & Htr & Hw & Hres & Hst).
    exists rc'. split; [exact Hrun|].
    split; [exact Htr|]. split; [exact Hw|]. split; [exact Hres|].
    rewrite Hst. cbn [Stats addResultToStats addStat map].
    now rewrite <- app_assoc.
Qed.

(** When every test case of a file is skipped, [RunTest] returns without
    error, runs no stage, touches neither the network nor the output, and
    adds one Skipped entry per test case to the statistics. *)
Theorem RunTest_all_skipped (rc : TestRunContext) (ftwTest : FTWTest) :
  Forall (fun t => needToSkipTest (Include rc) (Exclude rc) t = true)
         (Tests ftwTest) ->
  exists rc',
    RunTest rc ftwTest = Returns (None, rc') /\
    trace rc' = trace rc /\ world rc' = world rc /\
    Result rc' = Result rc /\
    Stats rc' = Stats rc
                ++ map (fun t => StatResult Skipped (schema.IdString t))
                       (Tests ftwTest).
Proof.
  unfold RunTest. apply runTestCases_all_skipped.
Qed.

(** With fail-fast set, once a test case that was run leaves a failure in
    the statistics, the test cases after it are neither run nor counted. *)
Theorem RunTest_fail_fast_stops
        (rc rc' : TestRunContext) (name : string) (t : schema.Test)
        (rest : list schema.Test) :
  FailFast rc = true ->
  needToSkipTest (Include rc) (Exclude rc) t = false ->
  RunTest rc {| MetaName := name; Tests := [t] |} = Returns (None, rc') ->
  (Stats_TotalFailed (Stats rc') > 0)%Z ->
  RunTest rc {| MetaName := name; Tests := t :: rest |} = Returns (None, rc').
Proof.
  unfold RunTest. cbn [MetaName Tests]. intros Hff Hskip Hone Hfailed.
  pose proof (runTestCases_effect _ _ _ _ _ _ Hone) as [(_&_&_&Hff'&_) _].
  cbn [runTestCases] in *. rewrite Hskip in *.
  destruct (if true && negb (ShowOnlyFailed rc)
            then (emit rc (EvPrint ("=> executing tests in file " ++ name)%string),
                  false)
            else (rc, true)) as [rc1 changed1].
  unfold bindO in *.
  destruct (runStages _ _ _) as [[err3 rc3]|msg]; [|discriminate Hone].
  destruct err3 as [e3|]; [discriminate Hone|].
  destruct (FailFast (addResultToStats rc3 (Result rc3)
                        (test_ApplyPlatformOverrides (Config rc) t))
            && (Stats_TotalFailed
                  (Stats (addResultToStats rc3 (Result rc3)
                            (test_ApplyPlatformOverrides (Config rc) t))) >? 0)%Z)
    eqn:Hcond.
  - exact Hone.
  - injection Hone as <-. exfalso.
    cbn [FailFast addResultToStats addStat] in Hcond, Hff'.
    rewrite Hff', Hff in Hcond. cbn [andb] in Hcond.
    match type of Hcond with
    | (?a >? ?b)%Z = false =>
        destruct (Z.gtb_spec a b); [discriminate Hcond | lia]
    end.
Qed.

(** A test case whose only stage is decided by an override rule is counted
    twice: once with the forced verdict, by the stage, and once more, by
    [RunTest], with the verdict that an earlier stage left in the context. *)
Theorem RunTest_counts_overridden_test_twice
        (rc : TestRunContext) (name : string) (t : schema.Test)
        (stage : schema.Stage) (chk : check.FTWCheck) :
  let t' := test_ApplyPlatformOverrides (Config rc) t in
  needToSkipTest (Include rc) (Exclude rc) t = false ->
  schema.Stages t' = [stage] ->
  check.NewCheck (Config rc) (world rc) = inr chk ->
  checkTestSanity
    (test_ApplyInputOverrides (Config rc) (schema.Input stage)) = false ->
  overrideMatches chk t' = true ->
  exists rc',
    RunTest rc {| MetaName := name; Tests := [t] |} = Returns (None, rc') /\
    Stats rc' = Stats rc
                ++ [StatResult (overriddenTestResult chk t') (schema.IdString t');
                    StatResult (Result rc) (schema.IdString t')].
Proof.
  intros t' Hskip Hstages Hnew Hsane Hover.
  destruct (RunnerFacts.overriddenTestResult_forced chk t' Hover) as [Hne _].
  assert (Hneq : negb (TestResult_eqb (overriddenTestResult chk t') Failed)
                 = true).
  { destruct (TestResult_eqb (overriddenTestResult chk t') Failed) eqn:Heq;
      [apply RunnerFacts.TestResult_eqb_eq in Heq; contradiction | reflexivity]. }
  unfold RunTest. cbn [MetaName Tests runTestCases]. rewrite Hskip.
  fold t'.
  destruct (if true && negb (ShowOnlyFailed rc)
            then (emit rc (EvPrint ("=> executing tests in file " ++ name)%string),
                  false)
            else (rc, true)) as [rc1 changed1] eqn:Hfirst.
  assert (F : Config rc1 = Config rc /\ world rc1 = world rc /\
              Stats rc1 = Stats rc /\ Result rc1 = Result rc).
  { destruct (true && negb (ShowOnlyFailed rc));
      injection Hfirst as <- <-; repeat split. }
  destruct F as (FC & FW & FS & FR).
  remember (if negb (ShowOnlyFailed rc1)
            then emit rc1 (EvPrint (String (ascii_of_nat 9) "running "
                                      ++ schema.IdString t' ++ ": ")%string)
            else rc1) as rc2 eqn:Hrc2.
  assert (G : Config rc2 = Config rc /\ world rc2 = world rc /\
              Stats rc2 = Stats rc /\ Result rc2 = Result rc).
  { rewrite Hrc2. destruct (negb (ShowOnlyFailed rc1));
      cbn [Config world Stats Result emit]; repeat split; assumption. }
  clear Hrc2.
  destruct G as (GC & GW & GS & GR).
  rewrite Hstages. cbn [runStages]. rewrite GC, GW, Hnew.
  unfold RunStage.
  destruct (uuid_NewString (world rc2)) as [id w].
  cbv zeta. cbn [Config emit setWorld]. rewrite GC, Hsane, Hneq.
  cbn [bindO]. eexists. split.
  - destruct (FailFast _ && _); reflexivity.
  - unfold displayResult.
    destruct (overriddenTestResult chk t');
      repeat match goal with
             | |- context [negb ?b] => destruct (negb b)
             end;
      cbn [Stats Result addResultToStats addStat emit setWorld];
      rewrite GS, GR, <- app_assoc; reflexivity.
Qed.

End WithExternal.
End TestRunMore.
(* ------------------------------------------------------------------ *)
(** ** The run as a whole *)

Module RunMore.
Import Counting.
Import runnerRun.

Section WithExternal.
Context `{E : External}.
Variable NewClientConfig : ClientConfig.
Variable NewClient_err : ClientConfig -> World -> option error.
Variable zeroResult : TestResult.

Lemma runTests_sameSetup (failFast : bool) (tests : list runner.FTWTest) :
  forall rc err rc',
    runTests failFast rc tests = Returns (err, rc') -> sameSetup rc rc'.
Proof.
  induction tests as [|t rest IH]; intros rc err rc' H; cbn [runTests] in H.
  - injection H as _ <-. apply RunnerMore.sameSetup_refl.
  - unfold bindO in H.
    destruct (runner.RunTest rc t) as [[err1 rc1]|msg] eqn:H1;
      [|discriminate H].
    unfold runner.RunTest in H1.
    apply TestRunMore.runTestCases_effect in H1. destruct H1 as [S1 _].
    destruct err1 as [e1|]; [injection H as _ <-; exact S1|].
    destruct (failFast && _); [injection H as _ <-; exact S1|].
    apply IH in H. now apply (RunnerMore.sameSetup_trans _ rc1).
Qed.


End WithExternal.
End RunMore.

(* ------------------------------------------------------------------ *)
(** ** The properties above on the concrete environment *)

Module MoreWitnesses.
Import Criteria.
Import Counting.
Import runner.

(** The plain stage leaves configuration and options alone. *)
Lemma RunStage_keeps_setup_witness :
  RunStage DemoMore.start (Demo.checkWith Demo.plainCfg) DemoMore.plainTest
           Demo.plainStage
  = Returns (None, DemoMore.plainCtx, DemoMore.plainChk) /\
  sameSetup DemoMore.start DemoMore.plainCtx.
Proof.
  assert (H : RunStage DemoMore.start (Demo.checkWith Demo.plainCfg)
                       DemoMore.plainTest Demo.plainStage
              = Returns (None, DemoMore.plainCtx, DemoMore.plainChk))
    by (vm_compute; reflexivity).
  split; [exact H|].
  exact (proj1 (RunnerMore.RunStage_keeps_setup (E := Demo.ext)
                  _ _ _ _ _ _ _ H)).
Defined.

(** With two retries per marking, the plain stage sends at most five
    requests. *)
Lemma RunStage_network_budget_witness :
  countEv isProbeOrRequest (trace DemoMore.plainCtx)
  <= countEv isProbeOrRequest (trace DemoMore.start) + 1
     + 2 * Z.to_nat (config.MaxMarkerRetries (Config DemoMore.start)).
Proof.
  assert (H : RunStage DemoMore.start (Demo.checkWith Demo.plainCfg)
                       DemoMore.plainTest Demo.plainStage
              = Returns (None, DemoMore.plainCtx, DemoMore.plainChk))
    by (vm_compute; reflexivity).
  exact (proj2 (proj2 (proj2 (RunnerMore.RunStage_network_budget
                                (E := Demo.ext) _ _ _ _ _ _ _ H)))).
Defined.

Lemma RunStage_cloud_mode_never_marks_witness :
  check.CloudMode (Demo.checkWith DemoMore.cloudCfg) = true /\
  countEv isMarkingEvent (trace DemoMore.cloudCtx)
  = countEv isMarkingEvent (trace DemoMore.cloudStart) /\
  check.log DemoMore.cloudChk = check.log (Demo.checkWith DemoMore.cloudCfg).
Proof.
  assert (H : RunStage DemoMore.cloudStart (Demo.checkWith DemoMore.cloudCfg)
                       DemoMore.plainTest Demo.plainStage
              = Returns (None, DemoMore.cloudCtx, DemoMore.cloudChk))
    by (vm_compute; reflexivity).
  split; [reflexivity|].
  pose proof (RunnerMore.RunStage_cloud_mode_never_marks (E := Demo.ext)
                DemoMore.cloudStart DemoMore.cloudCtx
                (Demo.checkWith DemoMore.cloudCfg) DemoMore.cloudChk
                DemoMore.plainTest Demo.plainStage None eq_refl H)
    as (Hm & _ & _ & Hl).
  split; [exact Hm | exact Hl].
Defined.

Lemma RunStage_expected_error_tolerates_failures_witness :
  boolOf (test.ExpectError (schema.Output DemoMore.errorStage)) = true /\
  (DemoMore.errOf DemoMore.errorRun = None \/
   DemoMore.errOf DemoMore.errorRun = Some errBadTestInput \/
   DemoMore.errOf DemoMore.errorRun = Some errRetryOnce).
Proof.
  assert (H : RunStage DemoMore.downStart (Demo.checkWith Demo.plainCfg)
                       (Demo.test920100 [DemoMore.errorStage])
                       DemoMore.errorStage
              = Returns (DemoMore.errOf DemoMore.errorRun, DemoMore.errorCtx,
                         DemoMore.errorChk))
    by (vm_compute; reflexivity).
  split; [reflexivity|].
  exact (RunnerMore.RunStage_expected_error_tolerates_failures
           (E := Demo.ext) DemoMore.downStart DemoMore.errorCtx
           (Demo.checkWith Demo.plainCfg) DemoMore.errorChk
           (Demo.test920100 [DemoMore.errorStage]) DemoMore.errorStage
           (DemoMore.errOf DemoMore.errorRun) eq_refl H).
Defined.

Lemma RunStage_shows_only_failures_witness :
  ShowOnlyFailed DemoMore.quietStart = true /\
  countEv isQuietDisplay (trace DemoMore.quietCtx)
  = countEv isQuietDisplay (trace DemoMore.quietStart).
Proof.
  assert (H : RunStage DemoMore.quietStart (Demo.checkWith Demo.plainCfg)
                       DemoMore.plainTest Demo.plainStage
              = Returns (None, DemoMore.quietCtx, DemoMore.quietChk))
    by (vm_compute; reflexivity).
  split; [reflexivity|].
  exact (RunnerMore.RunStage_shows_only_failures (E := Demo.ext)
           DemoMore.quietStart DemoMore.quietCtx
           (Demo.checkWith Demo.plainCfg) DemoMore.quietChk
           DemoMore.plainTest Demo.plainStage None eq_refl H).
Defined.



Lemma RunTest_names_file_at_most_once_witness :
  countEv isFileBanner (trace DemoMore.plainFileCtx)
  <= countEv isFileBanner (trace DemoMore.start) + 1.
Proof.
  assert (H : RunTest DemoMore.start DemoMore.plainFile
              = Returns (None, DemoMore.plainFileCtx))
    by (vm_compute; reflexivity).
  exact (TestRunMore.RunTest_names_file_at_most_once (E := Demo.ext)
           _ _ _ _ H).
Defined.

Lemma RunTest_all_skipped_witness :
  exists rc',
    RunTest DemoMore.excludingStart
            {| MetaName := "REQUEST-920";
               Tests := [DemoMore.plainTest; DemoMore.failingTest] |}
    = Returns (None, rc') /\
    trace rc' = [] /\
    Stats rc' = [StatResult Skipped "920100-1"; StatResult Skipped "920100-1"].
Proof.
  destruct (TestRunMore.RunTest_all_skipped (E := Demo.ext)
              DemoMore.excludingStart
              {| MetaName := "REQUEST-920";
                 Tests := [DemoMore.plainTest; DemoMore.failingTest] |})
    as (rc' & Hrun & Htr & _ & _ & Hst).
  - repeat constructor.
  - exists rc'. split; [exact Hrun|]. split; [exact Htr | exact Hst].
Defined.

Lemma RunTest_fail_fast_stops_witness :
  RunTest DemoMore.failFastStart
          {| MetaName := "REQUEST-920";
             Tests := [DemoMore.failingTest; DemoMore.plainTest] |}
  = Returns (None, DemoMore.failFastCtx).
Proof.
  apply (TestRunMore.RunTest_fail_fast_stops (E := Demo.ext)
           DemoMore.failFastStart DemoMore.failFastCtx "REQUEST-920"
           DemoMore.failingTest [DemoMore.plainTest]).
  - reflexivity.
  - reflexivity.
  - vm_compute; reflexivity.
  - vm_compute; reflexivity.
Defined.

Lemma RunTest_counts_overridden_test_twice_witness :
  exists rc',
    RunTest (Demo.contextWith Demo.ignoreCfg Demo.freshLog)
            {| MetaName := "REQUEST-920"; Tests := [DemoMore.plainTest] |}
    = Returns (None, rc') /\
    Stats rc' = [StatResult Ignored "920100-1"; StatResult Success "920100-1"].
Proof.
  destruct (TestRunMore.RunTest_counts_overridden_test_twice (E := Demo.ext)
              (Demo.contextWith Demo.ignoreCfg Demo.freshLog) "REQUEST-920"
              DemoMore.plainTest Demo.plainStage
              (Demo.checkWith Demo.ignoreCfg)
              eq_refl eq_refl eq_refl eq_refl eq_refl)
    as (rc' & Hrun & Hst).
  exists rc'. split; [exact Hrun | exact Hst].
Defined.


End MoreWitnesses.
